(** * VITALITE agent issues portal: case store, lifecycle and reporting

    A shallow embedding of [src/app.py]: the SQLite-backed case and user
    stores, the case factory, the resolution workflow, the status filter
    and the dashboard metrics, followed by the properties claimed of them.

    Modelling conventions.
    - A Python [str] is the [string] of its UTF-8 bytes; where the
      program looks at characters ([datetime.strptime]) the bytes are
      decoded to code points first.
    - [TypedDict]s are records, [Optional[...]] is [option], a Python [float]
      is a binary64 [float] and the clock and the random UUID are explicit
      arguments.
    - A SQLite table is the list of its rows in rowid order; the statements
      the program issues are the functions of section [Table].
    - Streamlit widgets are the arguments of the page functions; what a page
      prints is returned as a list of [Feedback]. *)

From Stdlib Require Import ZArith List String Ascii Bool Lia.
From Stdlib Require Import Floats Uint63 DecimalString.
Import ListNotations.

Open Scope string_scope.
Open Scope Z_scope.

(* ================================================================= *)
(** ** Python values *)

(** Truth value of a [str]: only the empty string is falsy. *)
Definition truthy (s : string) : bool := negb (s =? "")%string.

(** Truth value of an [Optional[str]]: [None] and the empty string are
    falsy. *)
Definition truthy_opt (o : option string) : bool :=
  match o with
  | Some s => truthy s
  | None => false
  end.

(** [a or b] on [Optional[str]] operands. *)
Definition py_or (a b : option string) : option string :=
  if truthy_opt a then a else b.

(** [x in xs] for a list of strings. *)
Definition py_in (x : string) (xs : list string) : bool :=
  existsb (String.eqb x) xs.

(** A number that is either a Python [int] or a Python [float]. *)
Inductive pynum :=
| PyInt (z : Z)
| PyFloat (x : float).

(** [float(z)] for an integer that a double holds exactly (below 2^53 in
    absolute value, which every count and every difference of two
    [datetime]s in seconds is). *)
Definition float_of_Z (z : Z) : float :=
  if z <? 0 then PrimFloat.opp (PrimFloat.of_uint63 (Uint63.of_Z (- z)))
  else PrimFloat.of_uint63 (Uint63.of_Z z).

(** [a / b] on two [int]s: Python's true division. *)
Definition int_truediv (a b : Z) : float :=
  PrimFloat.div (float_of_Z a) (float_of_Z b).

Definition decimal (z : Z) : string :=
  NilZero.string_of_uint (N.to_uint (Z.to_N z)).

(** Nearest integer to [num / den], ties to even ([0 < den]). *)
Definition round_half_even (num den : Z) : Z :=
  let q := num / den in
  let r := num mod den in
  if 2 * r <? den then q
  else if 2 * r =? den then (if Z.even q then q else q + 1)
  else q + 1.

Definition tenths_string (neg : bool) (t : Z) : string :=
  (if neg then "-" else "") ++ decimal (t / 10) ++ "." ++ decimal (t mod 10).

(** [f"{x:.1f}"] for a float: the exact binary value, correctly rounded to
    one digit after the point. *)
Definition format_1f (x : float) : string :=
  match Prim2SF x with
  | S754_zero s => tenths_string s 0
  | S754_infinity s => if s then "-inf" else "inf"
  | S754_nan => "nan"
  | S754_finite s m e =>
      tenths_string s
        (if 0 <=? e then 10 * Z.pos m * 2 ^ e
         else round_half_even (10 * Z.pos m) (2 ^ (- e)))
  end.

(** [f"{n:.1f}"] for either kind of number. *)
Definition format_num_1f (n : pynum) : string :=
  match n with
  | PyInt z => tenths_string (z <? 0) (10 * Z.abs z)
  | PyFloat x => format_1f x
  end.

(* ================================================================= *)
(** ** [datetime]: formatting, parsing and differences *)

Record datetime := mk_datetime {
  year : Z; month : Z; day : Z;
  hour : Z; minute : Z; second : Z
}.

Definition is_leap (y : Z) : bool :=
  (y mod 4 =? 0) && (negb (y mod 100 =? 0) || (y mod 400 =? 0)).

Definition days_in_month (y m : Z) : Z :=
  if m =? 2 then (if is_leap y then 29 else 28)
  else if (m =? 4) || (m =? 6) || (m =? 9) || (m =? 11) then 30
  else 31.

(** The values the [datetime] constructor accepts. *)
Definition valid_datetime (t : datetime) : bool :=
  (1 <=? year t) && (year t <=? 9999) &&
  (1 <=? month t) && (month t <=? 12) &&
  (1 <=? day t) && (day t <=? days_in_month (year t) (month t)) &&
  (0 <=? hour t) && (hour t <=? 23) &&
  (0 <=? minute t) && (minute t <=? 59) &&
  (0 <=? second t) && (second t <=? 59).

Definition digit_char (d : Z) : ascii := ascii_of_nat (48 + Z.to_nat d).

Definition dec2 (n : Z) : string :=
  String (digit_char (n / 10 mod 10)) (String (digit_char (n mod 10)) "").

Definition dec4 (n : Z) : string :=
  String (digit_char (n / 1000 mod 10))
    (String (digit_char (n / 100 mod 10)) (dec2 n)).

(** [t.strftime("%Y%m%d")]. *)
Definition strftime_Ymd (t : datetime) : string :=
  dec4 (year t) ++ dec2 (month t) ++ dec2 (day t).

(** [t.strftime("%Y-%m-%d %H:%M:%S")]; [%Y] has four digits, as it has
    for every year from 1000 on (for an earlier year the C library may
    write fewer). *)
Definition strftime (t : datetime) : string :=
  dec4 (year t) ++ "-" ++ dec2 (month t) ++ "-" ++ dec2 (day t) ++ " " ++
  dec2 (hour t) ++ ":" ++ dec2 (minute t) ++ ":" ++ dec2 (second t).

Definition code (c : ascii) : Z := Z.of_nat (nat_of_ascii c).

Definition between (lo hi c : ascii) : bool :=
  (code lo <=? code c) && (code c <=? code hi).

(** An ASCII decimal digit, [0-9]. *)
Definition is_digit (c : ascii) : bool := between "0" "9" c.

(** The code points of a [str], read off its UTF-8 bytes (surrogates
    included, so that every [str] has its byte string); [None] for bytes
    that encode no [str]. *)
Definition continues (c : ascii) : bool := (128 <=? code c) && (code c <=? 191).

Fixpoint utf8_decode (s : string) : option (list Z) :=
  match s with
  | EmptyString => Some []
  | String b0 r0 =>
      let c0 := code b0 in
      if c0 <? 128 then option_map (cons c0) (utf8_decode r0)
      else
        match r0 with
        | String b1 r1 =>
            if negb (continues b1) then None
            else if (194 <=? c0) && (c0 <=? 223) then
              option_map (cons ((c0 - 192) * 64 + (code b1 - 128)))
                         (utf8_decode r1)
            else
              match r1 with
              | String b2 r2 =>
                  if negb (continues b2) then None
                  else if (224 <=? c0) && (c0 <=? 239) then
                    let cp := (c0 - 224) * 4096 + (code b1 - 128) * 64
                              + (code b2 - 128) in
                    if 2048 <=? cp
                    then option_map (cons cp) (utf8_decode r2) else None
                  else
                    match r2 with
                    | String b3 r3 =>
                        if negb (continues b3) then None
                        else if (240 <=? c0) && (c0 <=? 244) then
                          let cp := (c0 - 240) * 262144
                                    + (code b1 - 128) * 4096
                                    + (code b2 - 128) * 64
                                    + (code b3 - 128) in
                          if (65536 <=? cp) && (cp <=? 1114111)
                          then option_map (cons cp) (utf8_decode r3)
                          else None
                        else None
                    | EmptyString => None
                    end
              | EmptyString => None
              end
        | EmptyString => None
        end
  end.

(** The code points of the digit zero of every script: the decimal
    digits of Unicode 14, the table of CPython 3.11, come in runs of ten
    from these. *)
Definition digit_zeros : list Z :=
  [48; 1632; 1776; 1984; 2406; 2534; 2662; 2790; 2918; 3046; 3174; 3302;
   3430; 3558; 3664; 3792; 3872; 4160; 4240; 6112; 6160; 6470; 6608; 6784;
   6800; 6992; 7088; 7232; 7248; 42528; 43216; 43264; 43472; 43504; 43600;
   44016; 65296; 66720; 68912; 69734; 69872; 69942; 70096; 70384; 70736;
   70864; 71248; 71360; 71472; 71904; 72016; 72784; 73040; 73120; 92768;
   92864; 93008; 120782; 120792; 120802; 120812; 120822; 123200; 123632;
   125264; 130032].

Definition digit_zero_of (c : Z) : option Z :=
  find (fun z => (z <=? c) && (c <=? z + 9)) digit_zeros.

(** [\d]: a decimal digit of any script. *)
Definition re_digit (c : Z) : bool :=
  match digit_zero_of c with
  | Some _ => true
  | None => false
  end.

(** [\s]: Unicode white space. *)
Definition is_space (c : Z) : bool :=
  ((9 <=? c) && (c <=? 13)) || ((28 <=? c) && (c <=? 32)) ||
  (c =? 133) || (c =? 160) || (c =? 5760) ||
  ((8192 <=? c) && (c <=? 8202)) || (c =? 8232) || (c =? 8233) ||
  (c =? 8239) || (c =? 8287) || (c =? 12288).

(** A character range of the pattern, as [[0-2]]. *)
Definition in_range (lo hi : ascii) (c : Z) : bool :=
  (code lo <=? c) && (c <=? code hi).

(** A literal character of the pattern. *)
Definition is_char (a : ascii) (c : Z) : bool := c =? code a.

(** The digit [int] reads a decimal digit as. *)
Definition digit_of (c : Z) : Z :=
  match digit_zero_of c with
  | Some z => c - z
  | None => 0
  end.

Section Regex.
(** The pattern [strptime] compiles the format into is matched by a
    backtracking matcher over the code points of the string: each piece
    takes the rest of the pattern as its continuation [k], and
    alternatives are tried in the order written. *)
Context {A : Type}.

Definition orelse (p q : option A) : option A :=
  match p with
  | Some x => Some x
  | None => q
  end.

(** One character of a class. *)
Definition cls (p : Z -> bool) (s : list Z)
           (k : Z -> list Z -> option A) : option A :=
  match s with
  | c :: r => if p c then k c r else None
  | [] => None
  end.

(** A literal character. *)
Definition lit (a : ascii) (s : list Z) (k : list Z -> option A) : option A :=
  cls (is_char a) s (fun _ r => k r).

(** Two characters [p q] read as a number. *)
Definition two (p q : Z -> bool) (s : list Z)
           (k : Z -> list Z -> option A) : option A :=
  cls p s (fun a r => cls q r (fun b r' => k (10 * digit_of a + digit_of b) r')).

Definition one (p : Z -> bool) (s : list Z)
           (k : Z -> list Z -> option A) : option A :=
  cls p s (fun a r => k (digit_of a) r).

(** [%Y]: [\d\d\d\d]. *)
Definition re_Y (s : list Z) (k : Z -> list Z -> option A) : option A :=
  two re_digit re_digit s (fun hi r =>
  two re_digit re_digit r (fun lo r' => k (100 * hi + lo) r')).

(** [%m]: [1[0-2]|0[1-9]|[1-9]]. *)
Definition re_m (s : list Z) (k : Z -> list Z -> option A) : option A :=
  orelse (two (is_char "1") (in_range "0" "2") s k)
 (orelse (two (is_char "0") (in_range "1" "9") s k)
         (one (in_range "1" "9") s k)).

(** [%d]: [3[0-1]|[1-2]\d|0[1-9]|[1-9]| [1-9]]. *)
Definition re_d (s : list Z) (k : Z -> list Z -> option A) : option A :=
  orelse (two (is_char "3") (in_range "0" "1") s k)
 (orelse (two (in_range "1" "2") re_digit s k)
 (orelse (two (is_char "0") (in_range "1" "9") s k)
 (orelse (one (in_range "1" "9") s k)
         (lit " " s (fun r => one (in_range "1" "9") r k))))).

(** [%H]: [2[0-3]|[0-1]\d|\d]. *)
Definition re_H (s : list Z) (k : Z -> list Z -> option A) : option A :=
  orelse (two (is_char "2") (in_range "0" "3") s k)
 (orelse (two (in_range "0" "1") re_digit s k)
         (one re_digit s k)).

(** [%M]: [[0-5]\d|\d]. *)
Definition re_M (s : list Z) (k : Z -> list Z -> option A) : option A :=
  orelse (two (in_range "0" "5") re_digit s k) (one re_digit s k).

(** [%S]: [6[0-1]|[0-5]\d|\d]. *)
Definition re_S (s : list Z) (k : Z -> list Z -> option A) : option A :=
  orelse (two (is_char "6") (in_range "0" "1") s k)
 (orelse (two (in_range "0" "5") re_digit s k)
         (one re_digit s k)).

(** [\s+], greedy. *)
Fixpoint re_spaces (s : list Z) (k : list Z -> option A) : option A :=
  match s with
  | c :: r => if is_space c then orelse (re_spaces r k) (k r) else None
  | [] => None
  end.
End Regex.

(** [format_regex.match(data_string)] for the format
    ["%Y-%m-%d %H:%M:%S"]: the fields found and the unconverted rest. *)
Definition match_format (s : list Z) : option (datetime * list Z) :=
  re_Y s (fun y s1 => lit "-" s1 (fun s2 =>
  re_m s2 (fun mo s3 => lit "-" s3 (fun s4 =>
  re_d s4 (fun d s5 => re_spaces s5 (fun s6 =>
  re_H s6 (fun h s7 => lit ":" s7 (fun s8 =>
  re_M s8 (fun mi s9 => lit ":" s9 (fun s10 =>
  re_S s10 (fun sec rest =>
    Some (mk_datetime y mo d h mi sec, rest)))))))))))).

(** [datetime.strptime(s, "%Y-%m-%d %H:%M:%S")]; [None] stands for the
    [ValueError] raised when the string does not match, when data remains
    after the match, or when the fields are not a [datetime]. *)
Definition strptime (s : string) : option datetime :=
  match utf8_decode s with
  | Some cps =>
      match match_format cps with
      | Some (t, []) => if valid_datetime t then Some t else None
      | _ => None
      end
  | None => None
  end.

(** Proleptic Gregorian ordinal of a date ([date.toordinal]). *)
Definition days_before_year (y : Z) : Z :=
  let p := y - 1 in p * 365 + p / 4 - p / 100 + p / 400.

Fixpoint days_before_month_from (y : Z) (m : nat) : Z :=
  match m with
  | O => 0
  | S m' => days_before_month_from y m' + days_in_month y (Z.of_nat m)
  end.

Definition days_before_month (y m : Z) : Z :=
  days_before_month_from y (Z.to_nat (m - 1)).

Definition toordinal (t : datetime) : Z :=
  days_before_year (year t) + days_before_month (year t) (month t) + day t.

(** [(a - b).total_seconds()], as the integer it always is here. *)
Definition seconds_between (a b : datetime) : Z :=
  (toordinal a - toordinal b) * 86400 +
  ((hour a * 3600 + minute a * 60 + second a) -
   (hour b * 3600 + minute b * 60 + second b)).

(* ================================================================= *)
(** ** Type hints and constants *)

(** [class User(TypedDict)]; [role] and [region] are prefixed, the
    reporter and the case have keys of the same name. *)
Record User := mk_User {
  username : string;
  password : string;
  user_role : string;
  user_region : string;
  active : bool
}.

Record CaseReporter := mk_CaseReporter {
  name : string;
  role : string;
  agent_number : option string;
  contact : option string
}.

Record CaseIssue := mk_CaseIssue {
  type : string;
  description : string;
  attachments : list string
}.

Record CaseResolution := mk_CaseResolution {
  notes : string;
  action_taken : string;
  timestamp : string
}.

Record CaseTimestamps := mk_CaseTimestamps {
  received : option string;
  logged : string;
  resolved : option string
}.

Record Case := mk_Case {
  case_id : string;
  channel : string;
  timestamps : CaseTimestamps;
  reporter : CaseReporter;
  region : string;
  issue : CaseIssue;
  status : string;
  resolution : option CaseResolution;
  handled_by : string
}.

(** [case['status'] = v] and [case['resolution'] = v]. *)
Definition set_status (v : string) (c : Case) : Case :=
  mk_Case (case_id c) (channel c) (timestamps c) (reporter c) (region c)
          (issue c) v (resolution c) (handled_by c).

Definition set_resolution (v : option CaseResolution) (c : Case) : Case :=
  mk_Case (case_id c) (channel c) (timestamps c) (reporter c) (region c)
          (issue c) (status c) v (handled_by c).

Definition CHANNELS : list string := ["WhatsApp"; "Voice Call"; "Email"].

Definition ROLES : list string :=
  ["Agent"; "Sales and Service Assistant"; "Agent Team Leader";
   "Regional Manager"; "Assistant Regional Manager"].

Definition USER_ROLES : list string := ["Admin"; "Manager"; "Agent"].

(* ================================================================= *)
(** ** Database functions *)

Section Table.
(** A table whose primary key is a text column: the rows in rowid
    order, which is the order a [SELECT] without [ORDER BY] scans. *)
Context {Row : Type} (pk : Row -> string).

Definition has_key (k : string) (t : list Row) : bool :=
  existsb (fun r => (pk r =? k)%string) t.

(** [DELETE FROM t WHERE pk = k]. *)
Definition sql_delete (k : string) (t : list Row) : list Row :=
  filter (fun r => negb (pk r =? k)%string) t.

(** [INSERT OR REPLACE INTO t VALUES r]: the row in conflict is
    deleted, then [r] is inserted with a new rowid. *)
Definition insert_or_replace (r : Row) (t : list Row) : list Row :=
  sql_delete (pk r) t ++ [r].

(** [INSERT OR IGNORE INTO t VALUES r]. *)
Definition insert_or_ignore (r : Row) (t : list Row) : list Row :=
  if has_key (pk r) t then t else t ++ [r].

(** The [PRIMARY KEY] constraint. *)
Definition unique_keys (t : list Row) : Prop := NoDup (map pk t).
End Table.

(** The JSON document of a case is represented by the case it denotes:
    [json.loads] undoes [json.dumps] on dictionaries of strings, [None]
    and lists of strings. *)
Definition json_dumps (c : Case) : Case := c.
Definition json_loads (d : Case) : Case := d.

Record CaseRow := mk_CaseRow {
  row_case_id : string;
  row_case_data : Case
}.

(** A row of [users]; [active] is the integer SQLite keeps for a
    [BOOLEAN]. *)
Record UserRow := mk_UserRow {
  row_username : string;
  row_password : string;
  row_role : string;
  row_region : string;
  row_active : Z
}.

Record Database := mk_Database {
  cases : list CaseRow;
  users : list UserRow
}.

(** The database file before [init_db] has ever run. *)
Definition fresh_db : Database := mk_Database [] [].

Definition int_of_bool (b : bool) : Z := if b then 1 else 0.

(** [bool(x)] for an integer. *)
Definition bool_of_int (x : Z) : bool := negb (x =? 0).

Definition init_db (db : Database) : Database :=
  mk_Database (cases db)
    (insert_or_ignore row_username
       (mk_UserRow "admin" "admin123" "Admin" "All" (int_of_bool true))
       (users db)).

Definition save_case (case : Case) (db : Database) : Database :=
  mk_Database
    (insert_or_replace row_case_id
       (mk_CaseRow (case_id case) (json_dumps case)) (cases db))
    (users db).

Definition get_all_cases (db : Database) : list Case :=
  map (fun row => json_loads (row_case_data row)) (cases db).

Definition delete_case (id : string) (db : Database) : Database :=
  mk_Database (sql_delete row_case_id id (cases db)) (users db).

Definition save_user (user : User) (db : Database) : Database :=
  mk_Database (cases db)
    (insert_or_replace row_username
       (mk_UserRow (username user) (password user) (user_role user)
                   (user_region user) (int_of_bool (active user)))
       (users db)).

Definition get_all_users (db : Database) : list User :=
  map (fun row => mk_User (row_username row) (row_password row)
                          (row_role row) (row_region row)
                          (bool_of_int (row_active row)))
      (users db).

Definition delete_user (uname : string) (db : Database) : Database :=
  mk_Database (cases db) (sql_delete row_username uname (users db)).

(* ================================================================= *)
(** ** Session state and page output *)

(** The keys of [st.session_state] the pages below read.  The keys
    [form_data], [users] and [editing_user] are carried by [CasePages]
    and [UserPages]. *)
Record SessionState := mk_SessionState {
  current_case : option Case;
  logged_in : bool;
  current_page : option string;
  user : option User;
  case_filter : string;
  new_case_submitted : bool
}.

(** The defaults of [initialize_session_state]. *)
Definition initial_session : SessionState :=
  mk_SessionState None false (Some "dashboard") None "All" false.

Definition set_current_case (v : option Case) (s : SessionState) : SessionState :=
  mk_SessionState v (logged_in s) (current_page s) (user s) (case_filter s)
                  (new_case_submitted s).

Definition set_new_case_submitted (v : bool) (s : SessionState) : SessionState :=
  mk_SessionState (current_case s) (logged_in s) (current_page s) (user s)
                  (case_filter s) v.

(** What a page writes back to the user. *)
Inductive Feedback :=
| st_error (msg : string)
| st_success (msg : string)
| st_info (msg : string)
| st_metric (label value : string).

(** The database and the session a page runs in. *)
Record App := mk_App {
  db : Database;
  session : SessionState
}.

(* ================================================================= *)
(** ** Authentication *)

(** [next((u for u in users if ...), None)]. *)
Definition find_user (uname pw : string) (us : list User) : option User :=
  find (fun u => (username u =? uname)%string && (password u =? pw)%string
                 && active u) us.

(** The submit branch of [login_page]. *)
Definition login_page (uname pw : string) (a : App) : App * list Feedback :=
  if truthy uname && truthy pw then
    match find_user uname pw (get_all_users (db a)) with
    | Some u =>
        (mk_App (db a)
           (mk_SessionState (current_case (session a)) true (Some "dashboard")
              (Some u) (case_filter (session a))
              (new_case_submitted (session a))),
         [st_success "Login successful!"])
    | None => (a, [st_error "Invalid credentials or inactive account"])
    end
  else (a, [st_error "Please enter both username and password"]).

(* ================================================================= *)
(** ** Case management *)

Definition hex_char (d : N) : ascii :=
  match String.get (N.to_nat d) "0123456789abcdef" with
  | Some c => c
  | None => "f"%char
  end.

(** ['%0{width}x' % n], most significant digit first. *)
Fixpoint hex_fixed (width : nat) (n : N) : string :=
  match width with
  | O => ""
  | S w => String (hex_char (N.shiftr n (4 * N.of_nat w) mod 16)) (hex_fixed w n)
  end.

(** [str(u)] for a UUID whose 128-bit integer is [u]. *)
Definition uuid_str (u : N) : string :=
  let hex := hex_fixed 32 u in
  substring 0 8 hex ++ "-" ++ substring 8 4 hex ++ "-" ++
  substring 12 4 hex ++ "-" ++ substring 16 4 hex ++ "-" ++
  substring 20 12 hex.

(** [now] is the clock reading and [uuid4] the random UUID drawn by the
    call; neither [strftime] nor [uuid4] raises, so the fallback of the
    handler is not reached. *)
Definition generate_case_id (now : datetime) (uuid4 : N) : string :=
  "VL-" ++ strftime_Ymd now ++ "-" ++ substring 0 8 (uuid_str uuid4).

(** [all([name, role, region, issue_type, description])]. *)
Definition validate_case_form
           (name role region issue_type description : string) : bool :=
  forallb truthy [name; role; region; issue_type; description].

(** The dictionary [new_case_form] stores under [form_data]. *)
Record FormData := mk_FormData {
  fd_channel : string;
  fd_name : string;
  fd_role : string;
  fd_agent_num : option string;
  fd_phone : option string;
  fd_email : option string;
  fd_received_time : option string;
  fd_region : string;
  fd_issue_type : string;
  fd_description : string;
  fd_resolution_notes : string;
  fd_attachments : list string
}.

(** The three clock readings of one call of [create_new_case], in the
    order they are taken, and the UUID it draws. *)
Record Entropy := mk_Entropy {
  now_id : datetime;
  now_logged : datetime;
  now_resolution : datetime;
  uuid4 : N
}.

(** [None] is the [except] branch, taken when no user is in the session. *)
Definition create_new_case (form_data : FormData) (e : Entropy)
           (s : SessionState) : option Case :=
  match user s with
  | None => None
  | Some u =>
      let case :=
        mk_Case (generate_case_id (now_id e) (uuid4 e))
          (fd_channel form_data)
          (mk_CaseTimestamps (fd_received_time form_data)
                             (strftime (now_logged e)) None)
          (mk_CaseReporter (fd_name form_data) (fd_role form_data)
                           (fd_agent_num form_data)
                           (py_or (fd_phone form_data) (fd_email form_data)))
          (fd_region form_data)
          (mk_CaseIssue (fd_issue_type form_data) (fd_description form_data)
                        (fd_attachments form_data))
          "Open" None (username u) in
      if truthy (fd_resolution_notes form_data) then
        Some (set_resolution
                (Some (mk_CaseResolution (fd_resolution_notes form_data)
                         "Initial notes" (strftime (now_resolution e))))
                case)
      else Some case
  end.

(** The widgets of the case form as they stand when it is submitted. *)
Record CaseForm := mk_CaseForm {
  w_channel : string;
  w_name : string;
  w_role : string;
  w_agent_num : string;
  w_phone : string;
  w_received : datetime;
  w_email : string;
  w_region : string;
  w_issue_type : string;
  w_description : string;
  w_resolution_notes : string;
  w_uploaded_files : list string
}.

Definition form_data_of (f : CaseForm) : FormData :=
  mk_FormData (w_channel f) (w_name f) (w_role f)
    (if (w_role f =? "Agent")%string then Some (w_agent_num f) else None)
    (if py_in (w_channel f) ["WhatsApp"; "Voice Call"]
     then Some (w_phone f) else None)
    (if (w_channel f =? "Email")%string then Some (w_email f) else None)
    (if (w_channel f =? "WhatsApp")%string
     then Some (strftime (w_received f)) else None)
    (w_region f) (w_issue_type f) (w_description f) (w_resolution_notes f)
    (if py_in (w_channel f) ["WhatsApp"; "Email"]
     then w_uploaded_files f else []).

(** The submit branch of [new_case_form] from its checks on; the
    assignment to [st.session_state.form_data] that precedes them is in
    [submit_case_form]. *)
Definition new_case_form (f : CaseForm) (e : Entropy) (a : App)
  : App * list Feedback :=
  if validate_case_form (w_name f) (w_role f) (w_region f) (w_issue_type f)
                        (w_description f) then
    if (w_role f =? "Agent")%string && negb (truthy (w_agent_num f)) then
      (a, [st_error "Agent number is required for Agent role"])
    else if py_in (w_channel f) ["WhatsApp"; "Voice Call"]
            && negb (truthy (w_phone f)) then
      (a, [st_error "Phone number is required for this channel"])
    else if (w_channel f =? "Email")%string && negb (truthy (w_email f)) then
      (a, [st_error "Email address is required for email cases"])
    else
      match create_new_case (form_data_of f) e (session a) with
      | Some new_case =>
          (mk_App (save_case new_case (db a))
                  (set_current_case (Some new_case)
                     (set_new_case_submitted true (session a))),
           [])
      | None =>
          (a, [st_error
                 "Error creating case: 'NoneType' object is not subscriptable"])
      end
  else (a, [st_error "Please fill all required fields (*)"]).

(** The value behind the metric of [display_case_details]; [None] when
    the branch is not taken or a [strptime] raises and the handler
    passes. *)
Definition response_mins (case : Case) : option float :=
  if (channel case =? "WhatsApp")%string
     && truthy_opt (received (timestamps case)) then
    match received (timestamps case) with
    | Some r =>
        match strptime r with
        | Some t_received =>
            match strptime (logged (timestamps case)) with
            | Some t_logged =>
                Some (PrimFloat.div
                        (float_of_Z (seconds_between t_logged t_received))
                        (float_of_Z 60))
            | None => None
            end
        | None => None
        end
    | None => None
    end
  else None.

Definition display_case_details (case : Case) : list Feedback :=
  match response_mins case with
  | Some m => [st_metric "WhatsApp Response Time" (format_1f m ++ " minutes")]
  | None => []
  end.

(** The resolution form: the notes and which submit button was pressed. *)
Record ResolutionForm := mk_ResolutionForm {
  resolution_notes : string;
  close : bool;
  escalate : bool
}.

(** What a run of [resolve_case] leaves behind: the database and the
    session, the dictionary [case] it was given (updated in place) and
    the page output. *)
Record Resolved := mk_Resolved {
  app_after : App;
  case_after : Case;
  output : list Feedback
}.

(** [main] calls [resolve_case] only on a case held by the session, and
    a [Case] is never an empty dictionary, so the guard [if not case] is
    passed; [time.sleep] and [st.rerun] leave no trace in the state. *)
Definition resolve_case (case : Case) (f : ResolutionForm) (now : datetime)
           (a : App) : Resolved :=
  let shown := display_case_details case in
  if close f || escalate f then
    if negb (truthy (resolution_notes f)) then
      mk_Resolved a case (shown ++ [st_error "Please provide resolution notes"])
    else
      let case1 := if close f then set_status "Closed" case
                   else set_status "Open" case in
      let action := if close f then "closed"
                    else "escalated (marked as Open)" in
      let case2 :=
        set_resolution
          (Some (mk_CaseResolution (resolution_notes f)
                   (if close f then "Closed by agent"
                    else "Escalated to senior support")
                   (strftime now)))
          case1 in
      mk_Resolved
        (mk_App (save_case case2 (db a))
                (set_current_case None (session a)))
        case2
        (shown ++ [st_success ("Case has been " ++ action ++ " successfully!")])
  else mk_Resolved a case shown.

Definition filter_cases (a : App) : list Case :=
  let cases := get_all_cases (db a) in
  match cases with
  | [] => []
  | _ =>
      if (case_filter (session a) =? "All")%string then cases
      else if (case_filter (session a) =? "Open")%string then
        filter (fun case => py_in (status case) ["Open"; "Escalated"]) cases
      else
        filter (fun case => (status case =? case_filter (session a))%string)
               cases
  end.

Definition set_case_filter (v : string) (a : App) : App :=
  mk_App (db a)
    (mk_SessionState (current_case (session a)) (logged_in (session a))
       (current_page (session a)) (user (session a)) v
       (new_case_submitted (session a))).

(** The cases [display_case_list] renders for a chosen filter, each with
    what [display_case_details] shows for it. *)
Definition display_case_list (filter_option : string) (a : App)
  : list (Case * list Feedback) :=
  map (fun case => (case, display_case_details case))
      (filter_cases (set_case_filter filter_option a)).

(** The two buttons next to a listed case. *)
Definition click_view_resolve (case : Case) (a : App) : App :=
  mk_App (db a) (set_current_case (Some case) (session a)).

Definition click_delete (case : Case) (a : App) : App :=
  mk_App (delete_case (case_id case) (db a)) (session a).

(* ================================================================= *)
(** ** Dashboard *)

Definition count_status (p : string -> bool) (cases : list Case) : Z :=
  Z.of_nat (List.length (filter (fun case => p (status case)) cases)).

Definition open_cases (cases : list Case) : Z :=
  count_status (fun s => py_in s ["Open"; "Escalated"]) cases.

Definition closed_cases (cases : list Case) : Z :=
  count_status (fun s => (s =? "Closed")%string) cases.

(** [(closed_cases / len(cases)) * 100 if cases else 0]. *)
Definition resolution_rate (cases : list Case) : pynum :=
  match cases with
  | [] => PyInt 0
  | _ => PyFloat (PrimFloat.mul
                    (int_truediv (closed_cases cases)
                                 (Z.of_nat (List.length cases)))
                    (float_of_Z 100))
  end.

(** The KPI cards of [dashboard]. *)
Definition dashboard (a : App) : list Feedback :=
  let cases := get_all_cases (db a) in
  match cases with
  | [] => [st_info "No cases logged yet"]
  | _ =>
      [st_metric "Total Cases" (decimal (Z.of_nat (List.length cases)));
       st_metric "Open Cases" (decimal (open_cases cases));
       st_metric "Resolution Rate"
                 (format_num_1f (resolution_rate cases) ++ "%")]
  end.

(** The dispatch of [main] on the case held by the session. *)
Definition main_resolve (f : ResolutionForm) (now : datetime) (a : App)
  : option Resolved :=
  match current_case (session a) with
  | Some case => Some (resolve_case case f now a)
  | None => None
  end.

(* ================================================================= *)
(** ** Notions the properties are stated with *)

Definition string_forall (p : ascii -> bool) (s : string) : bool :=
  forallb p (list_ascii_of_string s).

Definition is_hex (c : ascii) : bool := is_digit c || between "a" "f" c.

(** The documented shape of a case id: [VL-], eight decimal digits, a
    dash and eight lower-case hexadecimal digits. *)
Definition case_id_format (s : string) : bool :=
  (String.length s =? 20)%nat &&
  (substring 0 3 s =? "VL-")%string &&
  string_forall is_digit (substring 3 8 s) &&
  (substring 11 1 s =? "-")%string &&
  string_forall is_hex (substring 12 8 s).

(** Every row of [cases] is stored under the id of the case it holds,
    which is how [save_case] writes it. *)
Definition well_keyed (db : Database) : Prop :=
  Forall (fun row => row_case_id row = case_id (json_loads (row_case_data row)))
         (cases db).

(** The records of a collection that carry a given case id. *)
Definition with_case_id (id : string) (cs : list Case) : list Case :=
  filter (fun c => (case_id c =? id)%string) cs.

(** The databases the program can produce: [init_db] on a new file, then
    saves and deletes of cases and users. *)
Inductive reachable_db : Database -> Prop :=
| reach_init : reachable_db (init_db fresh_db)
| reach_reinit db : reachable_db db -> reachable_db (init_db db)
| reach_save_case c db : reachable_db db -> reachable_db (save_case c db)
| reach_delete_case id db : reachable_db db -> reachable_db (delete_case id db)
| reach_save_user u db : reachable_db db -> reachable_db (save_user u db)
| reach_delete_user n db : reachable_db db -> reachable_db (delete_user n db).

(** A run of [resolve_case] closes or escalates when a button was pressed
    and the notes pass the check. *)
Definition resolves (f : ResolutionForm) : bool :=
  (close f || escalate f) && truthy (resolution_notes f).

(** The life of one case: [lifecycle c n r] says that [c] was created by
    [create_new_case] ([n] tells whether resolution notes were supplied
    then) and has since been through any number of runs of
    [resolve_case] ([r] tells whether one of them closed or escalated
    it). *)
Inductive lifecycle : Case -> bool -> bool -> Prop :=
| life_created fd e s c :
    create_new_case fd e s = Some c ->
    lifecycle c (truthy (fd_resolution_notes fd)) false
| life_resolved c n r f now a :
    lifecycle c n r ->
    lifecycle (case_after (resolve_case c f now a)) n (r || resolves f).

(** The timestamps of a case are well formed when [logged] is a datetime
    string, as [create_new_case] writes it. *)
Definition logged_at (case : Case) (t : datetime) : Prop :=
  strptime (logged (timestamps case)) = Some t.

(** A submitted form is complete when the five required fields are
    filled in and so are the fields its role and channel call for. *)
Definition form_complete (f : CaseForm) : Prop :=
  w_name f <> "" /\ w_role f <> "" /\ w_region f <> "" /\
  w_issue_type f <> "" /\ w_description f <> "" /\
  (w_role f = "Agent" -> w_agent_num f <> "") /\
  (w_channel f = "WhatsApp" \/ w_channel f = "Voice Call" -> w_phone f <> "") /\
  (w_channel f = "Email" -> w_email f <> "").

(* ================================================================= *)
(** ** Sample data *)

Definition sample_clock : datetime := mk_datetime 2024 1 1 10 15 0.

Definition sample_later : datetime := mk_datetime 2024 1 2 9 30 0.

Definition sample_entropy : Entropy :=
  mk_Entropy sample_clock sample_clock sample_clock
             0x1b9d6bcd_bbfd_4b2d_9b5d_ab8dfbbd4bed%N.

Definition sample_agent : User := mk_User "mwila" "s3cret" "Agent" "Lusaka" true.

(** A WhatsApp report received a quarter of an hour before it is logged. *)
Definition sample_form : CaseForm :=
  mk_CaseForm "WhatsApp" "Chanda Phiri" "Agent" "A-1042" "+260970000000"
    (mk_datetime 2024 1 1 10 0 0) "" "Lusaka" "Float"
    "Float not reflecting after deposit" "" [].

(** The same report with resolution notes typed into the form. *)
Definition sample_form_with_notes : CaseForm :=
  mk_CaseForm "WhatsApp" "Chanda Phiri" "Agent" "A-1042" "+260970000000"
    (mk_datetime 2024 1 1 10 0 0) "" "Lusaka" "Float"
    "Float not reflecting after deposit" "asked to retry" [].

(** The application once [init_db] has run and the agent is logged in. *)
Definition sample_app : App :=
  mk_App (save_user sample_agent (init_db fresh_db))
    (mk_SessionState None true (Some "new_case") (Some sample_agent) "All" false).

Definition sample_case : Case :=
  mk_Case "VL-20240101-1b9d6bcd" "WhatsApp"
    (mk_CaseTimestamps (Some "2024-01-01 10:00:00") "2024-01-01 10:15:00" None)
    (mk_CaseReporter "Chanda Phiri" "Agent" (Some "A-1042")
                     (Some "+260970000000"))
    "Lusaka"
    (mk_CaseIssue "Float" "Float not reflecting after deposit" [])
    "Open" None "mwila".

Definition sample_closed : Case :=
  set_resolution
    (Some (mk_CaseResolution "fixed it" "Closed by agent" "2024-01-01 11:00:00"))
    (set_status "Closed" sample_case).

Definition sample_other : Case :=
  mk_Case "VL-20240102-0c0ffee0" "Email"
    (mk_CaseTimestamps None "2024-01-02 08:00:00" None)
    (mk_CaseReporter "Bwalya Zulu" "Regional Manager" None
                     (Some "bwalya@example.org"))
    "Copperbelt"
    (mk_CaseIssue "Tokens" "Token not received" ["receipt.pdf"])
    "Open" None "mwila".

(** The account [init_db] inserts, as [get_all_users] returns it. *)
Definition default_admin : User := mk_User "admin" "admin123" "Admin" "All" true.

(** A session at work: the agent files [sample_form], closes the case,
    finds it again under the filter [Closed], opens it with View/Resolve
    and presses Escalate. *)
Definition after_create : App :=
  fst (new_case_form sample_form sample_entropy sample_app).

Definition created_case : Case :=
  match current_case (session after_create) with
  | Some c => c
  | None => sample_case
  end.

Definition after_close : Resolved :=
  resolve_case created_case (mk_ResolutionForm "fixed it" true false)
               sample_clock after_create.

Definition listed_closed : list Case :=
  map fst (display_case_list "Closed" (app_after after_close)).

Definition after_escalate : Resolved :=
  resolve_case (hd sample_case listed_closed)
    (mk_ResolutionForm "needs a senior" false true) sample_later
    (click_view_resolve (hd sample_case listed_closed) (app_after after_close)).

(** The case the form makes when resolution notes are typed into it. *)
Definition created_with_notes : Case :=
  match create_new_case (form_data_of sample_form_with_notes) sample_entropy
                        (session sample_app) with
  | Some c => c
  | None => sample_case
  end.

(* ================================================================= *)
(** ** User management *)

Definition REGIONS : list string :=
  ["Lusaka"; "Western"; "North-Western"; "Northern"; "Southern"; "Central";
   "Luapula"; "Eastern"; "Copperbelt"; "Muchinga"].

(** What the user pages write: besides the [Feedback] of the other
    pages, [st.warning] and the [st.error] of a page's exception handler,
    which prints [prefix] followed by the text of the exception. *)
Inductive Notice :=
| st_warning (msg : string)
| st_exception (prefix : string)
| shown (f : Feedback).

(** The application together with the two session keys only the user
    pages read: [users], the list last read from the store, and
    [editing_user], absent until Edit is pressed. *)
Record UserPages := mk_UserPages {
  app : App;
  cached_users : list User;
  editing_user : option User
}.

(** The first run of [initialize_session_state] in a session. *)
Definition initialize_session_state (d : Database) : UserPages :=
  mk_UserPages (mk_App d initial_session) (get_all_users d) None.

Definition set_current_page (v : option string) (s : SessionState)
  : SessionState :=
  mk_SessionState (current_case s) (logged_in s) v (user s) (case_filter s)
                  (new_case_submitted s).

(** What is done on the page in one run: nothing, the Add User form
    submitted, or the Edit or Delete button of the [i]-th listed user. *)
Inductive UserAction :=
| no_action
| add_user (new_username new_password new_role new_region : string)
| click_edit (i : nat)
| click_delete_user (i : nat).

Definition user_management (act : UserAction) (s : UserPages)
  : UserPages * list Notice :=
  match user (session (app s)) with
  | None => (s, [st_exception "Error in user management: "])
  | Some me =>
      if negb (user_role me =? "Admin")%string then
        (s, [st_warning "You don't have permission to access this page"])
      else
        match act with
        | no_action => (s, [])
        | add_user new_username new_password new_role new_region =>
            if truthy new_username && truthy new_password then
              if existsb (fun u => (username u =? new_username)%string)
                         (get_all_users (db (app s))) then
                (s, [shown (st_error "Username already exists")])
              else
                let new_user := mk_User new_username new_password new_role
                                        new_region true in
                let d := save_user new_user (db (app s)) in
                (mk_UserPages (mk_App d (session (app s))) (get_all_users d)
                              (editing_user s),
                 [shown (st_success "User added successfully!")])
            else (s, [shown (st_error "Please fill all fields")])
        | click_edit i =>
            match nth_error (cached_users s) i with
            | Some u =>
                (mk_UserPages
                   (mk_App (db (app s))
                      (set_current_page (Some "edit_user") (session (app s))))
                   (cached_users s) (Some u),
                 [])
            | None => (s, [])
            end
        | click_delete_user i =>
            match nth_error (cached_users s) i with
            | Some u =>
                let d := delete_user (username u) (db (app s)) in
                (mk_UserPages (mk_App d (session (app s))) (get_all_users d)
                              (editing_user s),
                 [shown (st_success "User deleted successfully!")])
            | None => (s, [])
            end
        end
  end.

(** The widgets of the edit form and which submit button was pressed. *)
Record EditUserForm := mk_EditUserForm {
  new_password : string;
  confirm_password : string;
  new_role : string;
  new_region : string;
  active_box : bool;
  save_changes : bool;
  cancel : bool
}.

(** [USER_ROLES.index] and [(["All"] + REGIONS).index] raise when the
    stored role or region is not an option, and the handler reports it. *)
Definition edit_user (f : EditUserForm) (s : UserPages)
  : UserPages * list Notice :=
  match editing_user s with
  | None =>
      (mk_UserPages
         (mk_App (db (app s))
            (set_current_page (Some "user_management") (session (app s))))
         (cached_users s) None,
       [shown (st_error "No user selected for editing")])
  | Some u =>
      if negb (py_in (user_role u) USER_ROLES)
         || negb (py_in (user_region u) ("All" :: REGIONS)) then
        (s, [st_exception "Error editing user: "])
      else if save_changes f then
        if (new_password f =? confirm_password f)%string then
          let updated_user := mk_User (username u) (new_password f)
                                      (new_role f) (new_region f)
                                      (active_box f) in
          let d := save_user updated_user (db (app s)) in
          (mk_UserPages
             (mk_App d (set_current_page (Some "user_management")
                                         (session (app s))))
             (get_all_users d) (editing_user s),
           [shown (st_success "User updated successfully!")])
        else (s, [shown (st_error "Passwords don't match")])
      else if cancel f then
        (mk_UserPages
           (mk_App (db (app s))
              (set_current_page (Some "user_management") (session (app s))))
           (cached_users s) (editing_user s),
         [])
      else (s, [])
  end.

(* ================================================================= *)
(** ** Main application flow *)

(** The page [main] renders below the sidebar. *)
Inductive Page :=
| resolve_page (case : Case)
| dashboard_page
| user_management_page
| edit_user_page
| new_case_page.

Definition main_page (s : SessionState) : Page :=
  match current_case s with
  | Some case => resolve_page case
  | None =>
      match current_page s with
      | Some p =>
          if (p =? "dashboard")%string then dashboard_page
          else if (p =? "user_management")%string then user_management_page
          else if (p =? "edit_user")%string then edit_user_page
          else new_case_page
      | None => new_case_page
      end
  end.

(** The pages behind the sidebar buttons. *)
Definition nav_options (u : User) : list string :=
  (["dashboard"; "new_case"]
   ++ if (user_role u =? "Admin")%string then ["user_management"] else [])%list.

(** What the user does in one run of the script. *)
Inductive Event :=
| ev_login (uname pw : string)
| ev_nav (page : string)
| ev_logout
| ev_resolve (f : ResolutionForm) (now : datetime)
| ev_view (filter_option : string) (i : nat)
| ev_delete (filter_option : string) (i : nat)
| ev_submit (f : CaseForm) (e : Entropy)
| ev_users (act : UserAction)
| ev_edit (f : EditUserForm).

Definition with_app (a : App) (s : UserPages) : UserPages :=
  mk_UserPages a (cached_users s) (editing_user s).

(** The body of [main] and of the page it dispatches to, for one
    event; an event of a widget that is not on the screen does nothing.
    The dashboard shows its case list, with the filter and the buttons
    of the listed cases, only when a case is stored. *)
Definition main (ev : Event) (s : UserPages) : UserPages :=
  let a := app s in
  match user (session a) with
  | None => s
  | Some me =>
      match ev with
      | ev_nav page =>
          if py_in page (nav_options me) then
            with_app (mk_App (db a)
                        (set_current_case None
                           (set_current_page (Some page) (session a)))) s
          else s
      | ev_logout =>
          with_app (mk_App (db a)
                      (mk_SessionState None false None (user (session a))
                         (case_filter (session a))
                         (new_case_submitted (session a)))) s
      | _ =>
          match main_page (session a), ev with
          | resolve_page case, ev_resolve f now =>
              with_app (app_after (resolve_case case f now a)) s
          | dashboard_page, ev_view filter_option i =>
              let a1 := set_case_filter filter_option a in
              match get_all_cases (db a), nth_error (filter_cases a1) i with
              | [], _ => s
              | _, Some case => with_app (click_view_resolve case a1) s
              | _, None => with_app a1 s
              end
          | dashboard_page, ev_delete filter_option i =>
              let a1 := set_case_filter filter_option a in
              match get_all_cases (db a), nth_error (filter_cases a1) i with
              | [], _ => s
              | _, Some case => with_app (click_delete case a1) s
              | _, None => with_app a1 s
              end
          | new_case_page, ev_submit f e =>
              with_app (fst (new_case_form f e a)) s
          | user_management_page, ev_users act => fst (user_management act s)
          | edit_user_page, ev_edit f => fst (edit_user f s)
          | _, _ => s
          end
      end
  end.

(** The banner at the end of [new_case_form]: shown when a case was
    just submitted and is still held by the session. *)
Definition post_submission_message (s : SessionState) : option string :=
  if new_case_submitted s then
    match current_case s with
    | Some case => Some ("Case " ++ case_id case ++ " created successfully!")
    | None => None
    end
  else None.

(** One run of the script: [init_db] at import, then the login page or
    [main]. *)
Definition run (ev : Event) (s : UserPages) : UserPages :=
  let s0 := with_app (mk_App (init_db (db (app s))) (session (app s))) s in
  if negb (logged_in (session (app s0))) then
    match ev with
    | ev_login uname pw => with_app (fst (login_page uname pw (app s0))) s0
    | _ => s0
    end
  else main ev s0.

(** The states a browser session goes through, starting on any database
    file. *)
Inductive session_reaches : UserPages -> Prop :=
| session_starts d : session_reaches (initialize_session_state (init_db d))
| session_runs ev s : session_reaches s -> session_reaches (run ev s).

(** The logged-in user of a state, if any. *)
Definition acting_user (s : UserPages) : option User :=
  if logged_in (session (app s)) then user (session (app s)) else None.

Definition is_admin (o : option User) : bool :=
  match o with
  | Some u => (user_role u =? "Admin")%string
  | None => false
  end.

(** The users of a collection that carry a given name. *)
Definition with_username (n : string) (us : list User) : list User :=
  filter (fun u => (username u =? n)%string) us.

(** The records of a collection that carry another case id. *)
Definition without_case_id (id : string) (cs : list Case) : list Case :=
  filter (fun c => negb (case_id c =? id)%string) cs.

(** The statuses the program writes. *)
Definition status_written (c : Case) : Prop :=
  status c = "Open" \/ status c = "Closed".

(** The checks of the case form in the order [new_case_form] makes them:
    the message of the first that fails. *)
Definition first_failed_check (f : CaseForm) : option string :=
  if (w_name f =? "")%string || (w_role f =? "")%string
     || (w_region f =? "")%string || (w_issue_type f =? "")%string
     || (w_description f =? "")%string
  then Some "Please fill all required fields (*)"
  else if (w_role f =? "Agent")%string && (w_agent_num f =? "")%string
  then Some "Agent number is required for Agent role"
  else if ((w_channel f =? "WhatsApp")%string
           || (w_channel f =? "Voice Call")%string)
          && (w_phone f =? "")%string
  then Some "Phone number is required for this channel"
  else if (w_channel f =? "Email")%string && (w_email f =? "")%string
  then Some "Email address is required for email cases"
  else None.

(** The pages of user management are out of reach of a logged-in user
    who is not an administrator. *)
Definition admin_pages_guarded (s : SessionState) : Prop :=
  logged_in s = true ->
  exists me,
    user s = Some me
    /\ (user_role me = "Admin"
        \/ (current_page s <> Some "user_management"
            /\ current_page s <> Some "edit_user")).

(** Whether a case is listed under a value of the status filter. *)
Definition listed_under (filter_option : string) (c : Case) : bool :=
  if (filter_option =? "All")%string then true
  else if (filter_option =? "Open")%string
       then (status c =? "Open")%string || (status c =? "Escalated")%string
       else (status c =? filter_option)%string.

Definition sample_later_that_day : datetime := mk_datetime 2024 1 1 16 45 10.

(** The constraints of the two tables, and the keying of [cases]. *)
Definition tables_sound (d : Database) : Prop :=
  well_keyed d /\ unique_keys row_case_id (cases d)
  /\ unique_keys row_username (users d).

(** The datetime one second later, by the calendar. *)
Definition next_second (t : datetime) : datetime :=
  if second t <? 59 then
    mk_datetime (year t) (month t) (day t) (hour t) (minute t) (second t + 1)
  else if minute t <? 59 then
    mk_datetime (year t) (month t) (day t) (hour t) (minute t + 1) 0
  else if hour t <? 23 then
    mk_datetime (year t) (month t) (day t) (hour t + 1) 0 0
  else if day t <? days_in_month (year t) (month t) then
    mk_datetime (year t) (month t) (day t + 1) 0 0 0
  else if month t <? 12 then
    mk_datetime (year t) (month t + 1) 1 0 0 0
  else mk_datetime (year t + 1) 1 1 0 0 0.

(** A date of the calendar and a time of day, in any year. *)
Definition on_calendar (t : datetime) : bool :=
  (1 <=? month t) && (month t <=? 12) &&
  (1 <=? day t) && (day t <=? days_in_month (year t) (month t)) &&
  (0 <=? hour t) && (hour t <=? 23) &&
  (0 <=? minute t) && (minute t <=? 59) &&
  (0 <=? second t) && (second t <=? 59).

(** [t] is the integer nearest to [num / den], the even one of two
    equally near ([0 < den]). *)
Definition nearest_integer (num den t : Z) : Prop :=
  2 * num - den <= 2 * t * den <= 2 * num + den
  /\ (2 * t * den = 2 * num - den \/ 2 * t * den = 2 * num + den ->
      Z.even t = true).

(** [s] is the float [x] written with one digit after the point: the
    decimal numeral of the tenths nearest to the value of [x], which is
    [m * 2 ^ e] for a finite [x]. *)
Definition shows_to_one_decimal (x : float) (s : string) : Prop :=
  match Prim2SF x with
  | S754_zero neg => s = if neg then "-0.0" else "0.0"
  | S754_infinity neg => s = if neg then "-inf" else "inf"
  | S754_nan => s = "nan"
  | S754_finite neg m e =>
      exists t,
        nearest_integer (10 * Z.pos m * 2 ^ Z.max e 0) (2 ^ Z.max (- e) 0) t
        /\ s = (if neg then "-" else "")
               ++ NilZero.string_of_uint (N.to_uint (Z.to_N (t / 10)))
               ++ "."
               ++ NilZero.string_of_uint (N.to_uint (Z.to_N (t mod 10)))
  end.

(** The number a string of digits denotes in a base. *)
Definition read_digits (base : Z) (value : ascii -> Z) (s : string) : Z :=
  fold_left (fun acc c => acc * base + value c) (list_ascii_of_string s) 0.

Definition decimal_digit (c : ascii) : Z := code c - 48.

Definition hex_digit (c : ascii) : Z :=
  if is_digit c then code c - 48 else code c - 87.

(** The case form with the session key [form_data]: [None] is the empty
    dictionary it holds before the first submission. *)
Record CasePages := mk_CasePages {
  form_app : App;
  form_data : option FormData
}.

(** The whole submit branch of [new_case_form]: the form data are put
    in the session first, then come the checks and the creation. *)
Definition submit_case_form (f : CaseForm) (e : Entropy) (s : CasePages)
  : CasePages * list Feedback :=
  let out := new_case_form f e (form_app s) in
  (mk_CasePages (fst out) (Some (form_data_of f)), snd out).

Definition sample_manager : User :=
  mk_User "bwalya" "pa55" "Manager" "Copperbelt" true.

(** The user pages of an administrator just logged in on a new
    database. *)
Definition sample_admin_pages : UserPages :=
  run (ev_nav "user_management")
      (run (ev_login "admin" "admin123")
           (initialize_session_state (init_db fresh_db))).

Definition sample_voice_form : CaseForm :=
  mk_CaseForm "Voice Call" "Mutale Banda" "Regional Manager" ""
    "+260960000000" (mk_datetime 2024 1 1 9 0 0) "" "Eastern" "Stock"
    "Stock count does not match" "" ["ignored.png"].

(* ================================================================= *)
(** * Properties *)

(** ** Tables *)

Section TableFacts.
Context {Row : Type} (pk : Row -> string).

Lemma sql_delete_no_key k (t : list Row) :
  has_key pk k (sql_delete pk k t) = false.
Proof.
  unfold has_key, sql_delete.
  induction t as [|r t IH]; simpl; [reflexivity|].
  destruct (pk r =? k)%string eqn:E; simpl; [exact IH|].
  now rewrite E.
Qed.

Lemma sql_delete_idem k (t : list Row) :
  sql_delete pk k (sql_delete pk k t) = sql_delete pk k t.
Proof.
  unfold sql_delete.
  induction t as [|r t IH]; simpl; [reflexivity|].
  destruct (pk r =? k)%string eqn:E; simpl; [exact IH|].
  now rewrite E, IH.
Qed.

Lemma sql_delete_app k (t u : list Row) :
  sql_delete pk k (t ++ u) = (sql_delete pk k t ++ sql_delete pk k u)%list.
Proof. unfold sql_delete. apply filter_app. Qed.

Lemma sql_delete_In k r (t : list Row) :
  In r (sql_delete pk k t) <-> In r t /\ pk r <> k.
Proof.
  unfold sql_delete. rewrite filter_In, negb_true_iff, String.eqb_neq.
  reflexivity.
Qed.

Lemma has_key_false k (t : list Row) :
  has_key pk k t = false <-> forall r, In r t -> pk r <> k.
Proof.
  unfold has_key. split.
  - intros H r Hr E.
    assert (existsb (fun r => (pk r =? k)%string) t = true) as X.
    { apply existsb_exists. exists r. split; [exact Hr|].
      now apply String.eqb_eq. }
    congruence.
  - intros H. destruct (existsb _ t) eqn:E; [|reflexivity].
    apply existsb_exists in E as (r & Hr & Hk).
    apply String.eqb_eq in Hk. now elim (H r Hr).
Qed.

(** An upsert done twice is the upsert done once. *)
Lemma insert_or_replace_idem r (t : list Row) :
  insert_or_replace pk r (insert_or_replace pk r t) = insert_or_replace pk r t.
Proof.
  unfold insert_or_replace.
  rewrite sql_delete_app, sql_delete_idem. simpl.
  now rewrite String.eqb_refl, app_nil_r.
Qed.

Lemma sql_delete_unique k (t : list Row) :
  unique_keys pk t -> unique_keys pk (sql_delete pk k t).
Proof.
  unfold unique_keys, sql_delete.
  induction t as [|r t IH]; simpl; intros H; [exact H|].
  inversion H as [|? ? Hn Hd]; subst.
  destruct (pk r =? k)%string; simpl; [now apply IH|].
  constructor; [|now apply IH].
  rewrite in_map_iff in *. intros (x & Ex & Hx).
  apply Hn. exists x. split; [exact Ex|].
  now apply filter_In in Hx.
Qed.

(** Both insert statements keep the primary key unique. *)
Lemma insert_or_replace_unique r (t : list Row) :
  unique_keys pk t -> unique_keys pk (insert_or_replace pk r t).
Proof.
  intros H. unfold insert_or_replace, unique_keys.
  rewrite map_app. simpl.
  apply NoDup_app.
  - now apply sql_delete_unique.
  - constructor; [intros []|constructor].
  - intros x Hx [<-|[]].
    apply in_map_iff in Hx as (y & Ey & Hy).
    apply sql_delete_In in Hy as [_ Hy]. now apply Hy.
Qed.

Lemma insert_or_ignore_unique r (t : list Row) :
  unique_keys pk t -> unique_keys pk (insert_or_ignore pk r t).
Proof.
  intros H. unfold insert_or_ignore.
  destruct (has_key pk (pk r) t) eqn:E; [exact H|].
  unfold unique_keys. rewrite map_app. simpl.
  apply NoDup_app.
  - exact H.
  - constructor; [intros []|constructor].
  - intros x Hx [<-|[]].
    apply in_map_iff in Hx as (y & Ey & Hy).
    rewrite has_key_false in E. now apply (E y Hy).
Qed.
End TableFacts.

(* ================================================================= *)
(** ** The case store *)

Lemma well_keyed_fresh : well_keyed fresh_db.
Proof. constructor. Qed.

Lemma well_keyed_init db : well_keyed db -> well_keyed (init_db db).
Proof. intros H. exact H. Qed.

Lemma well_keyed_delete id db : well_keyed db -> well_keyed (delete_case id db).
Proof.
  unfold well_keyed, delete_case, sql_delete. simpl.
  rewrite !Forall_forall. intros H row Hrow.
  apply filter_In in Hrow as [Hrow _]. now apply H.
Qed.

Lemma well_keyed_save c db : well_keyed db -> well_keyed (save_case c db).
Proof.
  unfold well_keyed, save_case, insert_or_replace. simpl.
  intros H. apply Forall_app. split.
  - rewrite Forall_forall in *. intros row Hrow.
    apply sql_delete_In in Hrow as [Hrow _]. now apply H.
  - repeat constructor.
Qed.

(** The invariants of the [cases] table hold in every database the
    program produces. *)
Lemma reachable_db_invariant db :
  reachable_db db -> well_keyed db /\ unique_keys row_case_id (cases db).
Proof.
  induction 1 as [|db _ [IHw IHu]|c db _ [IHw IHu]|id db _ [IHw IHu]
                  |u db _ [IHw IHu]|n db _ [IHw IHu]].
  - split; constructor.
  - split; [now apply well_keyed_init|exact IHu].
  - split; [now apply well_keyed_save|].
    simpl. now apply insert_or_replace_unique.
  - split; [now apply well_keyed_delete|].
    simpl. now apply sql_delete_unique.
  - split; assumption.
  - split; assumption.
Qed.

Lemma with_case_id_deleted id db :
  well_keyed db ->
  with_case_id id
    (map (fun row => json_loads (row_case_data row))
         (sql_delete row_case_id id (cases db))) = [].
Proof.
  unfold well_keyed, with_case_id, sql_delete.
  induction (cases db) as [|row rows IH]; intros H; [reflexivity|].
  inversion H as [|? ? Hrow Hrows]; subst. simpl.
  destruct (row_case_id row =? id)%string eqn:E; simpl.
  - now apply IH.
  - rewrite <- Hrow, E. now apply IH.
Qed.

Lemma get_all_after_save case db :
  well_keyed db ->
  with_case_id (case_id case) (get_all_cases (save_case case db)) = [case].
Proof.
  intros H. unfold get_all_cases, save_case, insert_or_replace. simpl.
  unfold with_case_id. rewrite map_app, filter_app.
  fold (with_case_id (case_id case)
          (map (fun row => json_loads (row_case_data row))
               (sql_delete row_case_id (case_id case) (cases db)))).
  rewrite with_case_id_deleted by exact H.
  simpl. now rewrite String.eqb_refl.
Qed.

Lemma save_case_idem case db :
  save_case case (save_case case db) = save_case case db.
Proof.
  unfold save_case. simpl. f_equal.
  apply (insert_or_replace_idem row_case_id).
Qed.

(** C9: after [save_case case], [get_all_cases] holds exactly one record
    with the id of [case], and that record is [case] as last saved: an
    earlier save under the same id is replaced, and saving twice is
    saving once. *)
Theorem save_case_get_all_round_trip (case : Case) (db : Database) :
  well_keyed db ->
  with_case_id (case_id case) (get_all_cases (save_case case db)) = [case]
  /\ (forall older, case_id older = case_id case ->
        with_case_id (case_id case)
          (get_all_cases (save_case case (save_case older db))) = [case])
  /\ save_case case (save_case case db) = save_case case db.
Proof.
  intros H. split; [|split].
  - now apply get_all_after_save.
  - intros older _. apply get_all_after_save. now apply well_keyed_save.
  - apply save_case_idem.
Qed.

Lemma save_case_get_all_round_trip_witness :
  let db := save_case sample_other (save_case sample_case fresh_db) in
  well_keyed db /\
  with_case_id (case_id sample_closed)
    (get_all_cases (save_case sample_closed db)) = [sample_closed].
Proof.
  assert (well_keyed (save_case sample_other (save_case sample_case fresh_db)))
    as H by (repeat constructor).
  split; [exact H|].
  exact (proj1 (save_case_get_all_round_trip sample_closed _ H)).
Defined.

(* ================================================================= *)
(** ** The user store and login *)

Lemma find_user_skip uname pw (us vs : list User) :
  (forall u, In u us -> username u <> uname) ->
  find_user uname pw (us ++ vs) = find_user uname pw vs.
Proof.
  unfold find_user. induction us as [|u us IH]; intros H; [reflexivity|].
  simpl. assert ((username u =? uname)%string = false) as ->.
  { apply String.eqb_neq, H. now left. }
  simpl. apply IH. intros v Hv. apply H. now right.
Qed.

Lemma get_all_users_names db u :
  In u (get_all_users db) ->
  exists row, In row (users db) /\ row_username row = username u.
Proof.
  unfold get_all_users. intros H.
  apply in_map_iff in H as (row & <- & Hrow). now exists row.
Qed.

(** C10: if no user is called [admin], [init_db] leaves an active user
    [admin] with password [admin123], role [Admin] and region [All] in
    the store, and logging in with these credentials succeeds. *)
Theorem init_db_seeds_default_admin (db0 : Database) (s : SessionState) :
  has_key row_username "admin" (users db0) = false ->
  In default_admin (get_all_users (init_db db0))
  /\ login_page "admin" "admin123" (mk_App (init_db db0) s)
     = (mk_App (init_db db0)
          (mk_SessionState (current_case s) true (Some "dashboard")
             (Some default_admin) (case_filter s) (new_case_submitted s)),
        [st_success "Login successful!"]).
Proof.
  intros H.
  assert (get_all_users (init_db db0)
          = (get_all_users db0 ++ [default_admin])%list) as E.
  { unfold get_all_users, init_db, insert_or_ignore. simpl.
    rewrite H, map_app. reflexivity. }
  split.
  - rewrite E. apply in_or_app. right. now left.
  - unfold login_page. cbn [truthy String.eqb negb andb db].
    rewrite E, find_user_skip.
    + reflexivity.
    + intros u Hu. apply get_all_users_names in Hu as (row & Hrow & <-).
      rewrite has_key_false in H. now apply H.
Qed.

Lemma init_db_seeds_default_admin_witness :
  has_key row_username "admin" (users fresh_db) = false /\
  fst (login_page "admin" "admin123" (mk_App (init_db fresh_db) initial_session))
  = mk_App (init_db fresh_db)
      (mk_SessionState None true (Some "dashboard") (Some default_admin)
                       "All" false).
Proof.
  split; [reflexivity|].
  rewrite (proj2 (init_db_seeds_default_admin fresh_db initial_session
                    eq_refl)).
  reflexivity.
Defined.

(* ================================================================= *)
(** ** Resolving a case *)

Lemma truthy_true s : truthy s = true <-> s <> "".
Proof.
  unfold truthy. rewrite negb_true_iff. apply String.eqb_neq.
Qed.

Lemma save_case_stores case db :
  In (mk_CaseRow (case_id case) case) (cases (save_case case db)).
Proof.
  unfold save_case, insert_or_replace. simpl.
  apply in_or_app. right. now left.
Qed.

(** C1: with non-empty notes, the Close button leaves the case with
    status [Closed] and the resolution (notes, [Closed by agent], now),
    the Escalate button leaves it with status [Open] and the resolution
    (notes, [Escalated to senior support], now); either way the updated
    case is what [save_case] writes under the id of the case. *)
Theorem resolve_case_close_or_escalate
        (case : Case) (text : string) (now : datetime) (a : App) :
  text <> "" ->
  (let r := resolve_case case (mk_ResolutionForm text true false) now a in
   status (case_after r) = "Closed"
   /\ resolution (case_after r)
      = Some (mk_CaseResolution text "Closed by agent" (strftime now))
   /\ case_after r
      = set_resolution (resolution (case_after r)) (set_status "Closed" case)
   /\ db (app_after r) = save_case (case_after r) (db a)
   /\ In (mk_CaseRow (case_id case) (case_after r)) (cases (db (app_after r))))
  /\
  (let r := resolve_case case (mk_ResolutionForm text false true) now a in
   status (case_after r) = "Open"
   /\ resolution (case_after r)
      = Some (mk_CaseResolution text "Escalated to senior support"
                                (strftime now))
   /\ case_after r
      = set_resolution (resolution (case_after r)) (set_status "Open" case)
   /\ db (app_after r) = save_case (case_after r) (db a)
   /\ In (mk_CaseRow (case_id case) (case_after r)) (cases (db (app_after r)))).
Proof.
  intros H. apply truthy_true in H.
  unfold resolve_case. cbn [close escalate resolution_notes orb].
  rewrite H. cbn [negb].
  split; cbn [case_after app_after db];
    (repeat split; try reflexivity);
    match goal with
    | |- In (mk_CaseRow ?i ?c) _ => apply (save_case_stores c)
    end.
Qed.

Lemma resolve_case_close_or_escalate_witness :
  "fixed it" <> "" /\
  status (case_after
            (resolve_case sample_case (mk_ResolutionForm "fixed it" true false)
                          sample_clock sample_app)) = "Closed".
Proof.
  assert ("fixed it" <> "") as H by discriminate.
  split; [exact H|].
  exact (proj1 (proj1 (resolve_case_close_or_escalate sample_case "fixed it"
                         sample_clock sample_app H))).
Defined.

(** C3: with empty notes, whichever button is pressed, [resolve_case]
    reports the validation error and leaves the case, the stored cases
    and the session as they were. *)
Theorem resolve_case_empty_notes_rejected
        (case : Case) (f : ResolutionForm) (now : datetime) (a : App) :
  resolution_notes f = "" ->
  (close f || escalate f) = true ->
  let r := resolve_case case f now a in
  In (st_error "Please provide resolution notes") (output r)
  /\ case_after r = case
  /\ app_after r = a
  /\ get_all_cases (db (app_after r)) = get_all_cases (db a).
Proof.
  intros Hn Hb. unfold resolve_case. rewrite Hb, Hn. cbn.
  repeat split. apply in_or_app. right. now left.
Qed.

Lemma resolve_case_empty_notes_rejected_witness :
  let f := mk_ResolutionForm "" false true in
  resolution_notes f = "" /\ (close f || escalate f) = true /\
  app_after (resolve_case sample_case f sample_clock sample_app) = sample_app.
Proof.
  split; [reflexivity|]. split; [reflexivity|].
  exact (proj1 (proj2 (proj2
    (resolve_case_empty_notes_rejected sample_case
       (mk_ResolutionForm "" false true) sample_clock sample_app
       eq_refl eq_refl)))).
Defined.

(** Which status a run of [resolve_case] leaves, whatever the case. *)
Lemma resolve_case_status case f now a :
  status (case_after (resolve_case case f now a))
  = if resolves f then (if close f then "Closed" else "Open")
    else status case.
Proof.
  unfold resolve_case, resolves.
  destruct (close f) eqn:Ec, (escalate f) eqn:Ee,
           (truthy (resolution_notes f)) eqn:Et; reflexivity.
Qed.

(** C2, as the code has it: a run of [resolve_case] on a case with status
    [Closed] leaves it [Closed] unless Escalate is pressed with non-empty
    notes, and then the case is [Open] again; View/Resolve opens any
    listed case, whatever its status. *)
Theorem closed_case_after_resolve
        (case : Case) (f : ResolutionForm) (now : datetime) (a : App) :
  status case = "Closed" ->
  status (case_after (resolve_case case f now a))
  = (if negb (close f) && escalate f && truthy (resolution_notes f)
     then "Open" else "Closed")
  /\ main_resolve f now (click_view_resolve case a)
     = Some (resolve_case case f now (click_view_resolve case a)).
Proof.
  intros H. split; [|reflexivity].
  rewrite resolve_case_status, H. unfold resolves.
  destruct (close f), (escalate f), (truthy (resolution_notes f)); reflexivity.
Qed.

Lemma closed_case_after_resolve_witness :
  status sample_closed = "Closed" /\
  status (case_after
            (resolve_case sample_closed (mk_ResolutionForm "again" true false)
                          sample_later sample_app)) = "Closed".
Proof.
  split; [reflexivity|].
  exact (proj1 (closed_case_after_resolve sample_closed
                  (mk_ResolutionForm "again" true false) sample_later
                  sample_app eq_refl)).
Defined.

(** C2 does not hold as stated: the case the agent has closed is listed
    under the filter [Closed], and Escalate with notes stores it with
    status [Open]. *)
Lemma closed_case_reopened_by_escalate :
  map status (get_all_cases (db (app_after after_close))) = ["Closed"]
  /\ map status listed_closed = ["Closed"]
  /\ map case_id listed_closed = [case_id created_case]
  /\ map status (get_all_cases (db (app_after after_escalate))) = ["Open"]
  /\ map case_id (get_all_cases (db (app_after after_escalate)))
     = [case_id created_case].
Proof. vm_compute. repeat split. Qed.

(* ================================================================= *)
(** ** Filtering by status *)

Lemma filter_nil_or_cons {A} (p : A -> bool) (l : list A) :
  match l with [] => [] | _ => filter p l end = filter p l.
Proof. now destruct l. Qed.

(** C6: the filter [All] returns the stored cases as they are, [Open]
    those with status [Open] or [Escalated], [Closed] those with status
    [Closed]. *)
Theorem filter_cases_by_status (a : App) :
  filter_cases (set_case_filter "All" a) = get_all_cases (db a)
  /\ filter_cases (set_case_filter "Open" a)
     = filter (fun c => (status c =? "Open")%string
                        || (status c =? "Escalated")%string)
              (get_all_cases (db a))
  /\ filter_cases (set_case_filter "Closed" a)
     = filter (fun c => (status c =? "Closed")%string) (get_all_cases (db a))
  /\ (forall c, In c (filter_cases (set_case_filter "Open" a)) <->
                In c (get_all_cases (db a))
                /\ (status c = "Open" \/ status c = "Escalated"))
  /\ (forall c, In c (filter_cases (set_case_filter "Closed" a)) <->
                In c (get_all_cases (db a)) /\ status c = "Closed").
Proof.
  assert (filter_cases (set_case_filter "Open" a)
          = filter (fun c => (status c =? "Open")%string
                             || (status c =? "Escalated")%string)
                   (get_all_cases (db a))) as Eo.
  { unfold filter_cases. cbn [set_case_filter session db case_filter String.eqb
                              Ascii.eqb Bool.eqb].
    rewrite filter_nil_or_cons. apply filter_ext. intros c.
    unfold py_in. simpl. now rewrite orb_false_r. }
  assert (filter_cases (set_case_filter "Closed" a)
          = filter (fun c => (status c =? "Closed")%string)
                   (get_all_cases (db a))) as Ec.
  { unfold filter_cases. cbn [set_case_filter session db case_filter String.eqb
                              Ascii.eqb Bool.eqb].
    now rewrite filter_nil_or_cons. }
  split; [|split; [exact Eo|split; [exact Ec|split]]].
  - unfold filter_cases. cbn. now destruct (get_all_cases (db a)).
  - intros c. rewrite Eo, filter_In, orb_true_iff, !String.eqb_eq. reflexivity.
  - intros c. rewrite Ec, filter_In, String.eqb_eq. reflexivity.
Qed.

(* ================================================================= *)
(** ** Seconds on the calendar *)

Lemma seconds_between_add (a b c : datetime) :
  seconds_between c a = seconds_between c b + seconds_between b a.
Proof. unfold seconds_between. ring. Qed.

Lemma seconds_between_opp (a b : datetime) :
  seconds_between a b = - seconds_between b a.
Proof. unfold seconds_between. ring. Qed.

Lemma on_calendar_bounds t :
  on_calendar t = true ->
  1 <= month t <= 12 /\ 1 <= day t <= days_in_month (year t) (month t) /\
  0 <= hour t <= 23 /\ 0 <= minute t <= 59 /\ 0 <= second t <= 59.
Proof. unfold on_calendar. rewrite !andb_true_iff, !Z.leb_le. tauto. Qed.

Lemma valid_on_calendar t : valid_datetime t = true -> on_calendar t = true.
Proof.
  unfold valid_datetime, on_calendar. rewrite !andb_true_iff. tauto.
Qed.

Lemma valid_datetime_bounds t :
  valid_datetime t = true ->
  1 <= year t <= 9999 /\ 1 <= month t <= 12 /\ 1 <= day t <= 31 /\
  0 <= hour t <= 23 /\ 0 <= minute t <= 59 /\ 0 <= second t <= 59.
Proof.
  unfold valid_datetime. rewrite !andb_true_iff, !Z.leb_le.
  intros (((((((((((Y1 & Y2) & M1) & M2) & D1) & D2) & H1) & H2) & I1) & I2)
            & S1) & S2).
  assert (days_in_month (year t) (month t) <= 31).
  { unfold days_in_month.
    destruct (month t =? 2); [destruct (is_leap (year t)); lia|].
    destruct (_ || _); lia. }
  lia.
Qed.

Lemma days_in_month_positive y m : 28 <= days_in_month y m <= 31.
Proof.
  unfold days_in_month. destruct (m =? 2); [destruct (is_leap y); lia|].
  destruct (_ || _); lia.
Qed.

Lemma days_before_next_month y m :
  1 <= m ->
  days_before_month y (m + 1) = days_before_month y m + days_in_month y m.
Proof.
  intros H. unfold days_before_month.
  replace (Z.to_nat (m + 1 - 1)) with (S (Z.to_nat (m - 1))) by lia.
  cbn [days_before_month_from]. f_equal. f_equal. lia.
Qed.

Lemma days_before_next_year y :
  days_before_year (y + 1)
  = days_before_year y + (days_before_month y 12 + days_in_month y 12).
Proof.
  assert (days_before_month y 12 + days_in_month y 12
          = 365 + if is_leap y then 1 else 0) as ->.
  { unfold days_before_month. change (Z.to_nat (12 - 1)) with 11%nat.
    unfold days_before_month_from, days_in_month.
    destruct (is_leap y); reflexivity. }
  unfold days_before_year, is_leap.
  replace (y + 1 - 1) with y by lia.
  destruct (y mod 4 =? 0) eqn:E4, (y mod 100 =? 0) eqn:E100,
           (y mod 400 =? 0) eqn:E400; cbn [andb orb negb];
    rewrite ?Z.eqb_eq, ?Z.eqb_neq in *;
    Z.to_euclidean_division_equations; lia.
Qed.

(** The next second is one second later, and on the calendar. *)
Lemma next_second_counts t :
  on_calendar t = true ->
  seconds_between (next_second t) t = 1 /\ on_calendar (next_second t) = true.
Proof.
  intros H. destruct (on_calendar_bounds t H) as (M & D & Hh & Hm & Hs).
  pose proof (days_in_month_positive (year t) (month t)) as P.
  unfold next_second.
  destruct (second t <? 59) eqn:E1; [|destruct (minute t <? 59) eqn:E2;
    [|destruct (hour t <? 23) eqn:E3;
      [|destruct (day t <? days_in_month (year t) (month t)) eqn:E4;
        [|destruct (month t <? 12) eqn:E5]]]];
    rewrite ?Z.ltb_lt, ?Z.ltb_ge in *;
    (split;
     [unfold seconds_between, toordinal; cbn [year month day hour minute second]
     |unfold on_calendar; cbn [year month day hour minute second];
      rewrite !andb_true_iff, !Z.leb_le; repeat split; try lia]).
  - lia.
  - lia.
  - lia.
  - lia.
  - rewrite days_before_next_month by lia. lia.
  - pose proof (days_in_month_positive (year t) (month t + 1)). lia.
  - assert (month t = 12) as E12 by lia. rewrite E12 in *.
    rewrite days_before_next_year.
    change (days_before_month (year t + 1) 1) with 0. lia.
  - pose proof (days_in_month_positive (year t + 1) 1). lia.
Qed.

Lemma iter_next_second_on_calendar n t :
  on_calendar t = true -> on_calendar (Nat.iter n next_second t) = true.
Proof.
  intros H. induction n as [|n IH]; [exact H|].
  rewrite Nat.iter_succ. now apply next_second_counts.
Qed.

(** The datetime [n] seconds after [t] is [n] seconds from it. *)
Lemma seconds_between_counts n t :
  on_calendar t = true ->
  seconds_between (Nat.iter n next_second t) t = Z.of_nat n.
Proof.
  intros H. induction n as [|n IH].
  - change (Nat.iter 0 next_second t) with t. unfold seconds_between. lia.
  - rewrite Nat.iter_succ.
    rewrite (seconds_between_add t (Nat.iter n next_second t)), IH.
    rewrite (proj1 (next_second_counts _ (iter_next_second_on_calendar n t H))).
    lia.
Qed.

(* ================================================================= *)
(** ** One digit after the point *)

Lemma round_half_even_nearest (num den : Z) :
  0 < den -> nearest_integer num den (round_half_even num den).
Proof.
  intros H. unfold nearest_integer, round_half_even.
  pose proof (Z.div_mod num den ltac:(lia)) as E.
  pose proof (Z.mod_pos_bound num den H) as B.
  set (q := num / den) in *. set (r := num mod den) in *.
  destruct (2 * r <? den) eqn:E1; [|destruct (2 * r =? den) eqn:E2;
    [destruct (Z.even q) eqn:E3|]];
    rewrite ?Z.ltb_lt, ?Z.ltb_ge, ?Z.eqb_eq, ?Z.eqb_neq in *.
  - split; [lia|]. intros [X|X]; exfalso; lia.
  - split; [lia|]. intros _. exact E3.
  - split; [lia|]. intros _.
    replace (q + 1) with (Z.succ q) by lia.
    now rewrite Z.even_succ, <- Z.negb_even, E3.
  - split; [lia|]. intros [X|X]; exfalso; lia.
Qed.

(** [format_1f] writes the tenths nearest to the value of the float. *)
Lemma format_1f_shows (x : float) : shows_to_one_decimal x (format_1f x).
Proof.
  unfold shows_to_one_decimal, format_1f.
  destruct (Prim2SF x) as [neg|neg| |neg m e].
  - now destruct neg.
  - reflexivity.
  - reflexivity.
  - destruct (0 <=? e) eqn:E; rewrite ?Z.leb_le, ?Z.leb_gt in E.
    + exists (10 * Z.pos m * 2 ^ e). split; [|reflexivity].
      rewrite Z.max_l, Z.max_r by lia. change (2 ^ 0) with 1.
      unfold nearest_integer. split; [lia|]. intros [X|X]; exfalso; lia.
    + exists (round_half_even (10 * Z.pos m) (2 ^ (- e))).
      split; [|reflexivity].
      rewrite Z.max_r, Z.max_l by lia. change (2 ^ 0) with 1.
      rewrite Z.mul_1_r. apply round_half_even_nearest.
      apply Z.pow_pos_nonneg; lia.
Qed.

Lemma float_of_Z_nonneg (z : Z) :
  0 <= z -> float_of_Z z = PrimFloat.of_uint63 (Uint63.of_Z z).
Proof.
  intros H. unfold float_of_Z. now replace (z <? 0) with false by lia.
Qed.

(* ================================================================= *)
(** ** Creating a case *)

Lemma digit_cases (d : Z) :
  0 <= d < 10 ->
  d = 0 \/ d = 1 \/ d = 2 \/ d = 3 \/ d = 4 \/ d = 5 \/ d = 6 \/ d = 7 \/
  d = 8 \/ d = 9.
Proof. lia. Qed.

Lemma code_digit_char (d : Z) : 0 <= d < 10 -> code (digit_char d) = 48 + d.
Proof.
  intros H.
  destruct (digit_cases d H) as [->|[->|[->|[->|[->|[->|[->|[->|[->| ->]]]]]]]]];
    reflexivity.
Qed.

Lemma is_digit_digit_char (d : Z) : 0 <= d < 10 -> is_digit (digit_char d) = true.
Proof.
  intros H. unfold is_digit, between. rewrite code_digit_char by exact H.
  change (code "0") with 48. change (code "9") with 57. lia.
Qed.

Lemma is_digit_mod10 (x : Z) : is_digit (digit_char (x mod 10)) = true.
Proof. apply is_digit_digit_char. apply Z.mod_pos_bound. lia. Qed.

Lemma is_hex_mod16 (x : N) : is_hex (hex_char (x mod 16)) = true.
Proof.
  assert (x mod 16 < 16)%N as H by (apply N.mod_lt; discriminate).
  destruct (x mod 16)%N as [|p]; [reflexivity|].
  do 4 (destruct p as [p|p|]; try reflexivity); exfalso; lia.
Qed.

(** The first eight characters of [str(uuid)] are the eight most
    significant hexadecimal digits. *)
Lemma uuid_str_prefix (u : N) :
  substring 0 8 (uuid_str u)
  = String (hex_char (N.shiftr u 124 mod 16))
   (String (hex_char (N.shiftr u 120 mod 16))
   (String (hex_char (N.shiftr u 116 mod 16))
   (String (hex_char (N.shiftr u 112 mod 16))
   (String (hex_char (N.shiftr u 108 mod 16))
   (String (hex_char (N.shiftr u 104 mod 16))
   (String (hex_char (N.shiftr u 100 mod 16))
   (String (hex_char (N.shiftr u 96 mod 16)) ""))))))).
Proof. reflexivity. Qed.

Lemma generate_case_id_format (now : datetime) (u : N) :
  case_id_format (generate_case_id now u) = true.
Proof.
  unfold generate_case_id. rewrite uuid_str_prefix.
  unfold strftime_Ymd, dec4, dec2, case_id_format.
  cbn [append String.length Nat.eqb substring String.eqb Ascii.eqb Bool.eqb
       andb string_forall list_ascii_of_string forallb].
  rewrite !is_digit_mod10, !is_hex_mod16. reflexivity.
Qed.

Lemma shiftr_above_96 (u k : N) :
  N.shiftr u (96 + k) = N.shiftr (N.shiftr u 96) k.
Proof. now rewrite N.shiftr_shiftr. Qed.

Lemma hex_digit_hex_char (x : N) :
  hex_digit (hex_char (x mod 16)) = Z.of_N (x mod 16).
Proof.
  assert (x mod 16 < 16)%N as H by (apply N.mod_lt; discriminate).
  destruct (x mod 16)%N as [|p]; [reflexivity|].
  do 4 (destruct p as [p|p|]; try reflexivity); exfalso; lia.
Qed.

Lemma read_strftime_Ymd (t : datetime) :
  0 <= year t <= 9999 -> 0 <= month t <= 99 -> 0 <= day t <= 99 ->
  read_digits 10 decimal_digit (strftime_Ymd t)
  = year t * 10000 + month t * 100 + day t.
Proof.
  intros Y M D.
  unfold strftime_Ymd, dec4, dec2, read_digits, decimal_digit.
  cbn [append list_ascii_of_string fold_left].
  rewrite !code_digit_char by (apply Z.mod_pos_bound; lia).
  Z.to_euclidean_division_equations. lia.
Qed.

Lemma hex_place (w k : Z) :
  0 < k -> (w / k) mod 16 = w / k - 16 * (w / (k * 16)).
Proof.
  intros H. rewrite <- Z.div_div by lia. rewrite Z.mod_eq by lia. reflexivity.
Qed.

Lemma read_uuid_prefix (u : N) :
  read_digits 16 hex_digit (substring 0 8 (uuid_str u))
  = Z.of_N (N.shiftr u 96 mod 2 ^ 32).
Proof.
  rewrite uuid_str_prefix. unfold read_digits.
  cbn [list_ascii_of_string fold_left].
  rewrite !hex_digit_hex_char.
  change 124%N with (96 + 28)%N. change 120%N with (96 + 24)%N.
  change 116%N with (96 + 20)%N. change 112%N with (96 + 16)%N.
  change 108%N with (96 + 12)%N. change 104%N with (96 + 8)%N.
  change 100%N with (96 + 4)%N.
  rewrite !shiftr_above_96. set (v := N.shiftr u 96).
  rewrite !N.shiftr_div_pow2, !N2Z.inj_mod, !N2Z.inj_div.
  change (Z.of_N (2 ^ 28)) with 268435456.
  change (Z.of_N (2 ^ 24)) with 16777216.
  change (Z.of_N (2 ^ 20)) with 1048576.
  change (Z.of_N (2 ^ 16)) with 65536.
  change (Z.of_N (2 ^ 12)) with 4096.
  change (Z.of_N (2 ^ 8)) with 256.
  change (Z.of_N (2 ^ 4)) with 16.
  change (Z.of_N (2 ^ 32)) with 4294967296.
  change (Z.of_N 16) with 16.
  set (w := Z.of_N v).
  rewrite (hex_place w 268435456), (hex_place w 16777216),
    (hex_place w 1048576), (hex_place w 65536), (hex_place w 4096),
    (hex_place w 256), (hex_place w 16) by lia.
  rewrite (Z.mod_eq w 16), (Z.mod_eq w 4294967296) by lia.
  change (268435456 * 16) with 4294967296.
  change (16777216 * 16) with 268435456.
  change (1048576 * 16) with 16777216.
  change (65536 * 16) with 1048576.
  change (4096 * 16) with 65536.
  change (256 * 16) with 4096.
  change (16 * 16) with 256.
  lia.
Qed.

Lemma not_truthy_false s : s <> "" -> negb (truthy s) = false.
Proof. intros H. apply truthy_true in H. now rewrite H. Qed.

Lemma form_complete_passes (f : CaseForm) :
  form_complete f ->
  validate_case_form (w_name f) (w_role f) (w_region f) (w_issue_type f)
                     (w_description f) = true
  /\ (w_role f =? "Agent")%string && negb (truthy (w_agent_num f)) = false
  /\ py_in (w_channel f) ["WhatsApp"; "Voice Call"]
     && negb (truthy (w_phone f)) = false
  /\ (w_channel f =? "Email")%string && negb (truthy (w_email f)) = false.
Proof.
  intros (Hn & Hr & Hg & Hi & Hd & Ha & Hp & He).
  apply truthy_true in Hn, Hr, Hg, Hi, Hd.
  repeat split.
  - unfold validate_case_form. simpl. now rewrite Hn, Hr, Hg, Hi, Hd.
  - destruct (w_role f =? "Agent")%string eqn:E; [|reflexivity].
    apply String.eqb_eq in E. simpl. now apply not_truthy_false, Ha.
  - unfold py_in. simpl.
    destruct (w_channel f =? "WhatsApp")%string eqn:E1;
      [apply String.eqb_eq in E1; simpl; apply not_truthy_false, Hp; now left|].
    destruct (w_channel f =? "Voice Call")%string eqn:E2;
      [apply String.eqb_eq in E2; simpl; apply not_truthy_false, Hp; now right|].
    reflexivity.
  - destruct (w_channel f =? "Email")%string eqn:E; [|reflexivity].
    apply String.eqb_eq in E. simpl. now apply not_truthy_false, He.
Qed.

(** What [create_new_case] returns for a logged-in user. *)
Lemma create_new_case_fields fd e s u c :
  user s = Some u ->
  create_new_case fd e s = Some c ->
  status c = "Open"
  /\ case_id c = generate_case_id (now_id e) (uuid4 e)
  /\ logged (timestamps c) = strftime (now_logged e)
  /\ handled_by c = username u
  /\ resolution c
     = if truthy (fd_resolution_notes fd)
       then Some (mk_CaseResolution (fd_resolution_notes fd) "Initial notes"
                                    (strftime (now_resolution e)))
       else None.
Proof.
  unfold create_new_case. intros -> H.
  destruct (truthy (fd_resolution_notes fd)); inversion H; subst;
    repeat split; reflexivity.
Qed.

(** C4: for a complete form and a logged-in user, [create_new_case]
    returns a case with status [Open], an id [VL-], the eight digits of
    the date of the clock reading, a dash and the eight leading
    hexadecimal digits of the UUID, and no resolution, unless notes were
    typed into the form, and then the resolution (notes, [Initial
    notes], now); [new_case_form] saves that case. *)
Theorem create_new_case_from_complete_form
        (f : CaseForm) (e : Entropy) (a : App) (u : User) :
  user (session a) = Some u ->
  form_complete f ->
  exists c,
    create_new_case (form_data_of f) e (session a) = Some c
    /\ status c = "Open"
    /\ resolution c
       = (if (w_resolution_notes f =? "")%string then None
          else Some (mk_CaseResolution (w_resolution_notes f) "Initial notes"
                                       (strftime (now_resolution e))))
    /\ case_id_format (case_id c) = true
    /\ (exists date hex,
          case_id c = "VL-" ++ date ++ "-" ++ hex
          /\ String.length date = 8%nat /\ String.length hex = 8%nat
          /\ (valid_datetime (now_id e) = true ->
              read_digits 10 decimal_digit date
              = year (now_id e) * 10000 + month (now_id e) * 100
                + day (now_id e))
          /\ read_digits 16 hex_digit hex
             = Z.of_N (N.shiftr (uuid4 e) 96 mod 2 ^ 32))
    /\ new_case_form f e a
       = (mk_App (save_case c (db a))
                 (set_current_case (Some c)
                    (set_new_case_submitted true (session a))),
          []).
Proof.
  intros Hu Hf.
  destruct (create_new_case (form_data_of f) e (session a)) as [c|] eqn:Ec.
  2:{ unfold create_new_case in Ec. rewrite Hu in Ec.
      destruct (truthy _) in Ec; discriminate. }
  exists c.
  destruct (create_new_case_fields _ _ _ _ _ Hu Ec) as (Hs & Hi & _ & _ & Hr).
  split; [reflexivity|]. split; [exact Hs|]. split; [|split; [|split]].
  - rewrite Hr. unfold truthy. cbn [form_data_of fd_resolution_notes].
    now destruct (w_resolution_notes f =? "")%string.
  - rewrite Hi. apply generate_case_id_format.
  - exists (strftime_Ymd (now_id e)), (substring 0 8 (uuid_str (uuid4 e))).
    split; [exact Hi|]. split; [reflexivity|].
    split; [now rewrite uuid_str_prefix|]. split.
    + intros Hv.
      destruct (valid_datetime_bounds _ Hv) as (Y & M & D & _).
      apply read_strftime_Ymd; lia.
    + apply read_uuid_prefix.
  - destruct (form_complete_passes f Hf) as (H1 & H2 & H3 & H4).
    unfold new_case_form. now rewrite H1, H2, H3, H4, Ec.
Qed.

Lemma create_new_case_from_complete_form_witness :
  user (session sample_app) = Some sample_agent /\
  form_complete sample_form_with_notes /\
  exists c,
    create_new_case (form_data_of sample_form_with_notes) sample_entropy
                    (session sample_app) = Some c
    /\ status c = "Open".
Proof.
  assert (form_complete sample_form_with_notes) as Hf.
  { unfold form_complete, sample_form_with_notes. simpl.
    repeat split; discriminate. }
  split; [reflexivity|]. split; [exact Hf|].
  destruct (create_new_case_from_complete_form sample_form_with_notes
              sample_entropy sample_app sample_agent eq_refl Hf)
    as (c & Hc & Hs & _).
  exists c. split; [exact Hc|exact Hs].
Defined.

(* ================================================================= *)
(** ** The resolution field over the life of a case *)

Lemma resolve_case_resolution case f now a :
  resolution (case_after (resolve_case case f now a))
  = if resolves f
    then Some (mk_CaseResolution (resolution_notes f)
                 (if close f then "Closed by agent"
                  else "Escalated to senior support")
                 (strftime now))
    else resolution case.
Proof.
  unfold resolve_case, resolves.
  destruct (close f), (escalate f), (truthy (resolution_notes f)); reflexivity.
Qed.

(** C5, as the code has it: the resolution of a case is set exactly when
    the case was created with resolution notes or has been closed or
    escalated at least once. *)
Theorem resolution_set_iff (c : Case) (n r : bool) :
  lifecycle c n r ->
  (resolution c <> None <-> n = true \/ r = true).
Proof.
  induction 1 as [fd e s c Hc|c n r f now a Hl IH].
  - unfold create_new_case in Hc. destruct (user s); [|discriminate].
    destruct (truthy (fd_resolution_notes fd)); inversion Hc; subst; simpl.
    + split; [now left|discriminate].
    + split; [congruence|intros [|]; discriminate].
  - rewrite resolve_case_resolution. destruct (resolves f).
    + rewrite orb_true_r. split; [now right|discriminate].
    + now rewrite orb_false_r.
Qed.

Lemma lifecycle_created_case : lifecycle created_case false false.
Proof.
  exact (life_created (form_data_of sample_form) sample_entropy
                      (session sample_app) created_case eq_refl).
Qed.

Lemma resolution_set_iff_witness :
  lifecycle created_case false false /\
  (resolution created_case <> None <-> false = true \/ false = true).
Proof.
  split; [exact lifecycle_created_case|].
  exact (resolution_set_iff created_case false false lifecycle_created_case).
Defined.

(** C5 does not hold as stated: a case created with resolution notes has
    a resolution although it has never been closed or escalated. *)
Lemma resolution_set_before_any_resolve :
  lifecycle created_with_notes true false
  /\ resolution created_with_notes
     = Some (mk_CaseResolution "asked to retry" "Initial notes"
                               "2024-01-01 10:15:00")
  /\ ~ (resolution created_with_notes <> None <-> false = true).
Proof.
  split; [|split].
  - exact (life_created (form_data_of sample_form_with_notes) sample_entropy
                        (session sample_app) created_with_notes eq_refl).
  - reflexivity.
  - intros [H _]. assert (false = true) as X by (apply H; discriminate).
    discriminate.
Qed.

(* ================================================================= *)
(** ** Dashboard metrics *)

Lemma closed_cases_count (cases : list Case) :
  closed_cases cases
  = Z.of_nat (count_occ string_dec (map status cases) "Closed").
Proof.
  unfold closed_cases, count_status. f_equal.
  induction cases as [|c cs IH]; [reflexivity|]. simpl.
  destruct (string_dec (status c) "Closed") as [E|E].
  - apply String.eqb_eq in E. rewrite E. simpl. now rewrite IH.
  - apply String.eqb_neq in E. now rewrite E.
Qed.

(** C7: the resolution rate is the number of cases with status [Closed]
    divided by the number of cases, times 100, in binary64, and the
    dashboard shows it with one digit after the point, the tenths
    nearest to it; for no cases the expression is the integer 0, shown
    as 0.0; for three closed cases among four it is 75.0. *)
Theorem resolution_rate_value (cases : list Case) :
  (cases = [] ->
   resolution_rate cases = PyInt 0
   /\ format_num_1f (resolution_rate cases) = "0.0")
  /\ (cases <> [] ->
      exists x shown,
        x = PrimFloat.mul
              (PrimFloat.div
                 (PrimFloat.of_uint63
                    (Uint63.of_Z
                       (Z.of_nat (count_occ string_dec (map status cases)
                                            "Closed"))))
                 (PrimFloat.of_uint63
                    (Uint63.of_Z (Z.of_nat (List.length cases)))))
              (PrimFloat.of_uint63 100%uint63)
        /\ resolution_rate cases = PyFloat x
        /\ shows_to_one_decimal x shown
        /\ format_num_1f (resolution_rate cases) = shown
        /\ forall a, get_all_cases (db a) = cases ->
             In (st_metric "Resolution Rate" (shown ++ "%")) (dashboard a))
  /\ (closed_cases cases = 3 -> List.length cases = 4%nat ->
      resolution_rate cases = PyFloat 75%float
      /\ format_num_1f (resolution_rate cases) = "75.0").
Proof.
  split; [|split].
  - intros ->. split; reflexivity.
  - intros H. destruct cases as [|c cs]; [congruence|].
    assert (resolution_rate (c :: cs)
            = PyFloat
                (PrimFloat.mul
                   (PrimFloat.div
                      (PrimFloat.of_uint63
                         (Uint63.of_Z
                            (Z.of_nat (count_occ string_dec
                                         (map status (c :: cs)) "Closed"))))
                      (PrimFloat.of_uint63
                         (Uint63.of_Z (Z.of_nat (List.length (c :: cs))))))
                   (PrimFloat.of_uint63 100%uint63))) as E.
    { unfold resolution_rate, int_truediv. rewrite closed_cases_count.
      now rewrite !float_of_Z_nonneg by lia. }
    eexists. exists (format_num_1f (resolution_rate (c :: cs))).
    split; [reflexivity|]. split; [exact E|]. split; [|split].
    + rewrite E. apply format_1f_shows.
    + reflexivity.
    + intros a Ea. unfold dashboard. rewrite Ea. right. right. now left.
  - intros Hc Hl. destruct cases as [|c cs]; [discriminate|].
    unfold resolution_rate. rewrite Hc, Hl. split; reflexivity.
Qed.

Lemma resolution_rate_value_witness :
  let cases := [sample_closed; sample_other; set_status "Closed" sample_other;
                set_status "Closed" sample_case] in
  closed_cases cases = 3 /\ List.length cases = 4%nat /\
  format_num_1f (resolution_rate cases) = "75.0".
Proof.
  split; [reflexivity|]. split; [reflexivity|].
  exact (proj2 (proj2 (proj2 (resolution_rate_value
           [sample_closed; sample_other; set_status "Closed" sample_other;
            set_status "Closed" sample_case])) eq_refl eq_refl)).
Defined.

(** With no case stored the dashboard stops at its notice and shows no
    rate. *)
Lemma dashboard_without_cases (a : App) :
  get_all_cases (db a) = [] -> dashboard a = [st_info "No cases logged yet"].
Proof. intros E. unfold dashboard. now rewrite E. Qed.

(* ================================================================= *)
(** ** Timestamps: [strptime] reads back what [strftime] writes *)

Lemma digit_zero_of_ascii (u : Z) :
  0 <= u < 10 -> digit_zero_of (48 + u) = Some 48.
Proof.
  intros H. unfold digit_zero_of, digit_zeros. cbn [find].
  replace ((48 <=? 48 + u) && (48 + u <=? 48 + 9)) with true by lia.
  reflexivity.
Qed.

Lemma re_digit_ascii (u : Z) : 0 <= u < 10 -> re_digit (48 + u) = true.
Proof. intros H. unfold re_digit. now rewrite digit_zero_of_ascii. Qed.

Lemma digit_of_ascii (u : Z) : 0 <= u < 10 -> digit_of (48 + u) = u.
Proof.
  intros H. unfold digit_of. rewrite digit_zero_of_ascii by exact H. lia.
Qed.

Lemma utf8_decode_ascii (c : ascii) (r : string) (cps : list Z) :
  code c < 128 -> utf8_decode r = Some cps ->
  utf8_decode (String c r) = Some (code c :: cps).
Proof.
  intros H E. cbn [utf8_decode].
  replace (code c <? 128) with true by lia. now rewrite E.
Qed.

Lemma utf8_decode_digit (d : Z) (r : string) (cps : list Z) :
  0 <= d < 10 -> utf8_decode r = Some cps ->
  utf8_decode (String (digit_char d) r) = Some (48 + d :: cps).
Proof.
  intros H E. rewrite <- (code_digit_char d H).
  apply utf8_decode_ascii; [rewrite code_digit_char by exact H; lia|exact E].
Qed.

Lemma utf8_decode_dec2 (n : Z) (r : string) (cps : list Z) :
  utf8_decode r = Some cps ->
  utf8_decode (dec2 n ++ r)
  = Some (48 + n / 10 mod 10 :: 48 + n mod 10 :: cps).
Proof.
  intros E. unfold dec2. cbn [append].
  repeat (apply utf8_decode_digit; [apply Z.mod_pos_bound; lia|]). exact E.
Qed.

Lemma utf8_decode_dec4 (n : Z) (r : string) (cps : list Z) :
  utf8_decode r = Some cps ->
  utf8_decode (dec4 n ++ r)
  = Some (48 + n / 1000 mod 10 :: 48 + n / 100 mod 10
          :: 48 + n / 10 mod 10 :: 48 + n mod 10 :: cps).
Proof.
  intros E. unfold dec4, dec2. cbn [append].
  repeat (apply utf8_decode_digit; [apply Z.mod_pos_bound; lia|]). exact E.
Qed.

(** The code points [strftime] writes. *)
Lemma utf8_decode_strftime (t : datetime) :
  utf8_decode (strftime t)
  = Some (48 + year t / 1000 mod 10 :: 48 + year t / 100 mod 10
          :: 48 + year t / 10 mod 10 :: 48 + year t mod 10 :: 45
          :: 48 + month t / 10 mod 10 :: 48 + month t mod 10 :: 45
          :: 48 + day t / 10 mod 10 :: 48 + day t mod 10 :: 32
          :: 48 + hour t / 10 mod 10 :: 48 + hour t mod 10 :: 58
          :: 48 + minute t / 10 mod 10 :: 48 + minute t mod 10 :: 58
          :: 48 + second t / 10 mod 10 :: 48 + second t mod 10 :: []).
Proof.
  unfold strftime.
  apply utf8_decode_dec4.
  change ("-" ++ ?x)%string with (String "-" x).
  apply (utf8_decode_ascii "-"); [reflexivity|].
  apply utf8_decode_dec2. apply (utf8_decode_ascii "-"); [reflexivity|].
  apply utf8_decode_dec2. apply (utf8_decode_ascii " "); [reflexivity|].
  apply utf8_decode_dec2. apply (utf8_decode_ascii ":"); [reflexivity|].
  apply utf8_decode_dec2. apply (utf8_decode_ascii ":"); [reflexivity|].
  now rewrite <- (utf8_decode_dec2 (second t) "" []) by reflexivity.
Qed.

(** Settles the test of a conditional of the goal, on the code of an
    ASCII digit, by arithmetic. *)
Ltac char_test :=
  unfold in_range, is_char, is_space;
  repeat match goal with
         | |- context [code (Ascii ?a ?b ?c ?d ?e ?f ?g ?h)] =>
             let v := eval vm_compute in (code (Ascii a b c d e f g h)) in
             change (code (Ascii a b c d e f g h)) with v
         end;
  lia.

Ltac settle_if :=
  match goal with
  | |- context [if ?b then _ else _] =>
      first [ replace b with true by (symmetry; char_test)
            | replace b with false by (symmetry; char_test) ]
  end.

Ltac field_read Hk :=
  unfold two, one, lit, cls;
  rewrite ?re_digit_ascii by lia;
  repeat settle_if; cbn [orelse];
  rewrite ?digit_of_ascii by lia;
  match goal with
  | |- context [?k ?x ?r] =>
      match type of Hk with
      | k ?y r = _ => replace x with y by lia
      end
  end;
  rewrite Hk; reflexivity.

Lemma two_digits (n : Z) :
  0 <= n < 100 ->
  exists t u, 0 <= t < 10 /\ 0 <= u < 10 /\ n = 10 * t + u
              /\ n / 10 mod 10 = t /\ n mod 10 = u.
Proof.
  intros H. exists (n / 10 mod 10), (n mod 10).
  repeat split; try reflexivity; Z.to_euclidean_division_equations; lia.
Qed.

Section ReadBack.
Context {A : Type} (k : Z -> list Z -> option A) (rest : list Z) (v : A).

Lemma re_M_reads n :
  0 <= n <= 59 -> k n rest = Some v ->
  re_M (48 + n / 10 mod 10 :: 48 + n mod 10 :: rest) k = Some v.
Proof.
  intros H Hk.
  destruct (two_digits n) as (t & u & Ht & Hu & -> & -> & ->); [lia|].
  unfold re_M. field_read Hk.
Qed.

Lemma re_S_reads n :
  0 <= n <= 59 -> k n rest = Some v ->
  re_S (48 + n / 10 mod 10 :: 48 + n mod 10 :: rest) k = Some v.
Proof.
  intros H Hk.
  destruct (two_digits n) as (t & u & Ht & Hu & -> & -> & ->); [lia|].
  unfold re_S. field_read Hk.
Qed.

Lemma re_H_reads n :
  0 <= n <= 23 -> k n rest = Some v ->
  re_H (48 + n / 10 mod 10 :: 48 + n mod 10 :: rest) k = Some v.
Proof.
  intros H Hk.
  destruct (two_digits n) as (t & u & Ht & Hu & -> & -> & ->); [lia|].
  unfold re_H. destruct (Z.eq_dec t 2) as [->|N]; field_read Hk.
Qed.

Lemma re_m_reads n :
  1 <= n <= 12 -> k n rest = Some v ->
  re_m (48 + n / 10 mod 10 :: 48 + n mod 10 :: rest) k = Some v.
Proof.
  intros H Hk.
  destruct (two_digits n) as (t & u & Ht & Hu & -> & -> & ->); [lia|].
  unfold re_m. destruct (Z.eq_dec t 1) as [->|N]; field_read Hk.
Qed.

Lemma re_d_reads n :
  1 <= n <= 31 -> k n rest = Some v ->
  re_d (48 + n / 10 mod 10 :: 48 + n mod 10 :: rest) k = Some v.
Proof.
  intros H Hk.
  destruct (two_digits n) as (t & u & Ht & Hu & -> & -> & ->); [lia|].
  unfold re_d.
  destruct (Z.eq_dec t 3) as [->|N3]; [field_read Hk|].
  destruct (Z.eq_dec t 0) as [->|N0]; field_read Hk.
Qed.

Lemma re_Y_reads n :
  0 <= n <= 9999 -> k n rest = Some v ->
  re_Y (48 + n / 1000 mod 10 :: 48 + n / 100 mod 10
        :: 48 + n / 10 mod 10 :: 48 + n mod 10 :: rest) k = Some v.
Proof.
  intros H Hk.
  assert (exists a b c d, 0 <= a < 10 /\ 0 <= b < 10 /\ 0 <= c < 10
                          /\ 0 <= d < 10
                          /\ n = 1000 * a + 100 * b + 10 * c + d
                          /\ n / 1000 mod 10 = a /\ n / 100 mod 10 = b
                          /\ n / 10 mod 10 = c /\ n mod 10 = d)
    as (a & b & c & d & Ha & Hb & Hc & Hd & E & -> & -> & -> & ->).
  { exists (n / 1000 mod 10), (n / 100 mod 10), (n / 10 mod 10), (n mod 10).
    repeat split; try reflexivity; Z.to_euclidean_division_equations; lia. }
  subst n. unfold re_Y. field_read Hk.
Qed.
End ReadBack.

Lemma re_spaces_reads {A} (k : list Z -> option A) (n : Z) (rest : list Z) :
  re_spaces (32 :: 48 + n / 10 mod 10 :: rest) k
  = k (48 + n / 10 mod 10 :: rest).
Proof.
  cbn [re_spaces].
  assert (0 <= n / 10 mod 10 < 10) by (apply Z.mod_pos_bound; lia).
  replace (is_space 32) with true by reflexivity.
  replace (is_space (48 + n / 10 mod 10)) with false
    by (symmetry; char_test).
  reflexivity.
Qed.

(** Steps over a literal character of the pattern. *)
Ltac lit_step :=
  cbv beta; unfold lit, cls, is_char; cbv beta iota;
  match goal with
  | |- context [?x =? code ?a] => change (x =? code a) with true
  end;
  cbv beta iota.

(** [strptime] reads back the datetime [strftime] wrote. *)
Lemma strptime_strftime (t : datetime) :
  valid_datetime t = true -> strptime (strftime t) = Some t.
Proof.
  intros Hv. pose proof (valid_datetime_bounds t Hv) as (Y & M & D & H & I & S).
  unfold strptime. rewrite utf8_decode_strftime.
  assert (forall cps, match_format
            (48 + year t / 1000 mod 10 :: 48 + year t / 100 mod 10
             :: 48 + year t / 10 mod 10 :: 48 + year t mod 10 :: 45
             :: 48 + month t / 10 mod 10 :: 48 + month t mod 10 :: 45
             :: 48 + day t / 10 mod 10 :: 48 + day t mod 10 :: 32
             :: 48 + hour t / 10 mod 10 :: 48 + hour t mod 10 :: 58
             :: 48 + minute t / 10 mod 10 :: 48 + minute t mod 10 :: 58
             :: 48 + second t / 10 mod 10 :: 48 + second t mod 10 :: cps)
          = Some (t, cps)) as E.
  { intros cps. unfold match_format.
    apply re_Y_reads; [lia|]. lit_step.
    apply re_m_reads; [lia|]. lit_step.
    apply re_d_reads; [lia|]. cbv beta. rewrite re_spaces_reads.
    apply re_H_reads; [lia|]. lit_step.
    apply re_M_reads; [lia|]. lit_step.
    apply re_S_reads; [lia|]. now destruct t. }
  now rewrite E, Hv.
Qed.

(* ================================================================= *)
(** ** The WhatsApp response time *)

Lemma resolve_case_timestamps case f now a :
  timestamps (case_after (resolve_case case f now a)) = timestamps case.
Proof.
  unfold resolve_case.
  destruct (close f), (escalate f), (truthy (resolution_notes f)); reflexivity.
Qed.

(** A case is created with a well-formed [logged] timestamp, and
    [resolve_case] keeps it. *)
Lemma create_new_case_logged fd e s c :
  valid_datetime (now_logged e) = true ->
  create_new_case fd e s = Some c ->
  logged_at c (now_logged e).
Proof.
  intros Hv Hc. unfold logged_at, create_new_case in *.
  destruct (user s); [|discriminate].
  destruct (truthy (fd_resolution_notes fd)); inversion Hc; subst; simpl;
    now apply strptime_strftime.
Qed.

Lemma resolve_case_logged case f now a t :
  logged_at case t -> logged_at (case_after (resolve_case case f now a)) t.
Proof. unfold logged_at. now rewrite resolve_case_timestamps. Qed.

Lemma response_mins_defined (case : Case) (t_logged : datetime) (m : float) :
  logged_at case t_logged ->
  response_mins case = Some m <->
  channel case = "WhatsApp"
  /\ exists r t_received,
       received (timestamps case) = Some r
       /\ strptime r = Some t_received
       /\ m = PrimFloat.div (float_of_Z (seconds_between t_logged t_received))
                            (float_of_Z 60).
Proof.
  unfold logged_at, response_mins. intros Hl. rewrite Hl.
  destruct (channel case =? "WhatsApp")%string eqn:Ec.
  - apply String.eqb_eq in Ec.
    destruct (received (timestamps case)) as [r|]; simpl.
    + destruct (truthy r) eqn:Et.
      * destruct (strptime r) as [tr|] eqn:Er.
        -- split.
           ++ intros E. inversion E; subst. split; [exact Ec|].
              now exists r, tr.
           ++ intros (_ & r' & tr' & E1 & E2 & ->).
              inversion E1; subst. rewrite Er in E2. now inversion E2.
        -- split; [discriminate|].
           intros (_ & r' & tr' & E1 & E2 & _).
           inversion E1; subst. congruence.
      * split; [discriminate|].
        intros (_ & r' & tr' & E1 & E2 & _). inversion E1; subst.
        unfold truthy in Et. apply negb_false_iff, String.eqb_eq in Et.
        subst. discriminate.
    + split; [discriminate|]. intros (_ & r' & tr' & E1 & _). discriminate.
  - apply String.eqb_neq in Ec. simpl. split; [discriminate|].
    intros (E & _). contradiction.
Qed.

Lemma response_mins_some (case : Case) (m : float) :
  response_mins case = Some m <->
  channel case = "WhatsApp"
  /\ exists r t_received t_logged,
       received (timestamps case) = Some r
       /\ strptime r = Some t_received
       /\ strptime (logged (timestamps case)) = Some t_logged
       /\ m = PrimFloat.div
                (float_of_Z (seconds_between t_logged t_received))
                (float_of_Z 60).
Proof.
  destruct (strptime (logged (timestamps case))) as [tl|] eqn:El.
  - rewrite (response_mins_defined case tl m El). split.
    + intros (Hc & r & tr & E1 & E2 & E3). split; [exact Hc|].
      now exists r, tr, tl.
    + intros (Hc & r & tr & tl' & E1 & E2 & E3 & E4). split; [exact Hc|].
      inversion E3; subst. now exists r, tr.
  - split.
    + unfold response_mins. rewrite El.
      destruct (_ && _); [|discriminate].
      destruct (received (timestamps case)); [|discriminate].
      destruct (strptime s); discriminate.
    + intros (_ & r & tr & tl & _ & _ & E & _). discriminate.
Qed.

(** C8, as the code has it: the WhatsApp response time is defined
    exactly when the channel is [WhatsApp] and both [received] and
    [logged] parse, and is then the minutes from [received] to [logged]:
    [n / 60] when [logged] is [n] seconds after [received], the negative
    of it when [received] is [n] seconds after [logged].  It is shown
    with one digit after the point; otherwise nothing is shown for it,
    and every case of the list is rendered either way.  Received at
    10:00:00 and logged at 10:15:00 the same day give 15.0. *)
Theorem whatsapp_response_minutes (case : Case) :
  (forall m, response_mins case = Some m <->
     channel case = "WhatsApp"
     /\ exists r t_received t_logged,
          received (timestamps case) = Some r
          /\ strptime r = Some t_received
          /\ strptime (logged (timestamps case)) = Some t_logged
          /\ m = PrimFloat.div
                   (float_of_Z (seconds_between t_logged t_received))
                   (float_of_Z 60))
  /\ (forall r t_received t_logged n,
        channel case = "WhatsApp" ->
        received (timestamps case) = Some r ->
        strptime r = Some t_received ->
        strptime (logged (timestamps case)) = Some t_logged ->
        (t_logged = Nat.iter n next_second t_received ->
         response_mins case
         = Some (PrimFloat.div
                   (PrimFloat.of_uint63 (Uint63.of_Z (Z.of_nat n)))
                   (PrimFloat.of_uint63 60%uint63)))
        /\ (t_received = Nat.iter n next_second t_logged -> (0 < n)%nat ->
            response_mins case
            = Some (PrimFloat.div
                      (PrimFloat.opp
                         (PrimFloat.of_uint63 (Uint63.of_Z (Z.of_nat n))))
                      (PrimFloat.of_uint63 60%uint63))))
  /\ (forall m, response_mins case = Some m ->
        exists shown,
          shows_to_one_decimal m shown
          /\ display_case_details case
             = [st_metric "WhatsApp Response Time" (shown ++ " minutes")])
  /\ (response_mins case = None -> display_case_details case = [])
  /\ (forall filter_option a,
        map fst (display_case_list filter_option a)
        = filter_cases (set_case_filter filter_option a))
  /\ (channel case = "WhatsApp" ->
      received (timestamps case) = Some "2024-01-01 10:00:00" ->
      logged (timestamps case) = "2024-01-01 10:15:00" ->
      response_mins case = Some 15%float
      /\ display_case_details case
         = [st_metric "WhatsApp Response Time" "15.0 minutes"]).
Proof.
  split; [|split; [|split; [|split; [|split]]]].
  - intros m. apply response_mins_some.
  - intros r tr tl n Hc Hr Etr Etl.
    assert (valid_datetime tr = true /\ valid_datetime tl = true) as (Vr & Vl).
    { unfold strptime in Etr, Etl.
      destruct (utf8_decode r); [|discriminate].
      destruct (match_format l) as [[t0 [|x xs]]|]; try discriminate.
      destruct (valid_datetime t0) eqn:V0; [|discriminate].
      destruct (utf8_decode (logged (timestamps case))); [|discriminate].
      destruct (match_format l0) as [[t1 [|y ys]]|]; try discriminate.
      destruct (valid_datetime t1) eqn:V1; [|discriminate].
      inversion Etr; inversion Etl; subst. now split. }
    assert (response_mins case
            = Some (PrimFloat.div
                      (float_of_Z (seconds_between tl tr)) (float_of_Z 60)))
      as E.
    { apply response_mins_some. split; [exact Hc|]. now exists r, tr, tl. }
    split.
    + intros ->. rewrite E.
      rewrite seconds_between_counts by (now apply valid_on_calendar).
      now rewrite float_of_Z_nonneg by lia.
    + intros -> Hn. rewrite E.
      rewrite seconds_between_opp,
        seconds_between_counts by (now apply valid_on_calendar).
      unfold float_of_Z at 1.
      replace (- Z.of_nat n <? 0) with true by lia.
      now rewrite Z.opp_involutive.
  - intros m E. exists (format_1f m). split; [apply format_1f_shows|].
    unfold display_case_details. now rewrite E.
  - intros E. unfold display_case_details. now rewrite E.
  - intros filter_option a. unfold display_case_list.
    rewrite map_map. simpl. apply map_id.
  - intros Ec Er Eg.
    assert (response_mins case = Some 15%float) as E.
    { unfold response_mins. rewrite Ec, Er, Eg. reflexivity. }
    split; [exact E|]. unfold display_case_details. rewrite E. reflexivity.
Qed.

Lemma whatsapp_response_minutes_witness :
  display_case_details sample_case
  = [st_metric "WhatsApp Response Time" "15.0 minutes"].
Proof.
  exact (proj2 (proj2 (proj2 (proj2 (proj2 (proj2
           (whatsapp_response_minutes sample_case)))))
           eq_refl eq_refl eq_refl)).
Defined.

(** C8 does not hold as stated: a WhatsApp case whose [received] parses
    but whose [logged] does not shows no response time. *)
Lemma malformed_logged_shows_no_response_time :
  let case :=
    mk_Case "VL-20240101-1b9d6bcd" "WhatsApp"
      (mk_CaseTimestamps (Some "2024-01-01 10:00:00") "01/01/2024 10:15" None)
      (reporter sample_case) "Lusaka" (issue sample_case) "Open" None "mwila" in
  channel case = "WhatsApp"
  /\ received (timestamps case) = Some "2024-01-01 10:00:00"
  /\ strptime "2024-01-01 10:00:00" = Some (mk_datetime 2024 1 1 10 0 0)
  /\ response_mins case = None
  /\ display_case_details case = [].
Proof. vm_compute. repeat split. Qed.

(** A case whose [received] does not parse shows no metric; the case
    next to it still shows its own. *)
Lemma unparseable_received_is_skipped :
  let odd := mk_Case "VL-20240101-00000000" "WhatsApp"
               (mk_CaseTimestamps (Some "yesterday") "2024-01-01 10:15:00" None)
               (reporter sample_case) "Lusaka" (issue sample_case) "Open" None
               "mwila" in
  map snd (display_case_list "All"
             (mk_App (save_case sample_case (save_case odd fresh_db))
                     initial_session))
  = [[]; [st_metric "WhatsApp Response Time" "15.0 minutes"]].
Proof. reflexivity. Qed.

(* ================================================================= *)
(** ** More on the case store *)

Lemma sql_delete_absent {Row} (pk : Row -> string) k (t : list Row) :
  has_key pk k t = false -> sql_delete pk k t = t.
Proof.
  unfold has_key, sql_delete. induction t as [|r t IH]; [reflexivity|].
  simpl. destruct (pk r =? k)%string; [discriminate|].
  simpl. intros H. now rewrite IH.
Qed.

Lemma sql_delete_present_length {Row} (pk : Row -> string) k (t : list Row) :
  unique_keys pk t -> has_key pk k t = true ->
  S (List.length (sql_delete pk k t)) = List.length t.
Proof.
  unfold unique_keys. induction t as [|r t IH]; [discriminate|].
  simpl. intros Hu Hk. inversion Hu as [|? ? Hn Hd]; subst.
  destruct (pk r =? k)%string eqn:E; simpl.
  - apply String.eqb_eq in E. subst k.
    rewrite (sql_delete_absent pk (pk r) t); [reflexivity|].
    apply has_key_false. intros x Hx Ex. apply Hn. rewrite <- Ex.
    now apply in_map.
  - simpl in Hk. now rewrite IH.
Qed.

Lemma database_eta d : mk_Database (cases d) (users d) = d.
Proof. now destruct d. Qed.

Lemma get_all_cases_deleted id d :
  well_keyed d ->
  get_all_cases (delete_case id d) = without_case_id id (get_all_cases d).
Proof.
  unfold well_keyed, get_all_cases, delete_case, without_case_id, sql_delete.
  simpl. induction (cases d) as [|row rows IH]; intros H; [reflexivity|].
  inversion H as [|? ? Hrow Hrows]; subst. simpl.
  unfold json_loads in *. rewrite <- Hrow.
  destruct (row_case_id row =? id)%string; simpl; now rewrite IH.
Qed.

Lemma get_all_cases_saved c d :
  well_keyed d ->
  get_all_cases (save_case c d)
  = (without_case_id (case_id c) (get_all_cases d) ++ [c])%list.
Proof.
  intros H. rewrite <- (get_all_cases_deleted (case_id c) d H).
  unfold get_all_cases, save_case, insert_or_replace. simpl.
  now rewrite map_app.
Qed.

(** X1: in a store keyed by case id, [save_case] puts the case last and
    leaves every record with another id where it was. *)
Theorem save_case_keeps_other_cases (c : Case) (d : Database) :
  well_keyed d ->
  get_all_cases (save_case c d)
  = (without_case_id (case_id c) (get_all_cases d) ++ [c])%list.
Proof. apply get_all_cases_saved. Qed.

Lemma save_case_keeps_other_cases_witness :
  let d := save_case sample_other (save_case sample_case fresh_db) in
  well_keyed d /\
  get_all_cases (save_case sample_closed d) = [sample_other; sample_closed].
Proof.
  assert (well_keyed (save_case sample_other (save_case sample_case fresh_db)))
    as H by (repeat constructor).
  split; [exact H|].
  exact (save_case_keeps_other_cases sample_closed _ H).
Defined.

(** X2: in a store keyed by case id, [delete_case] removes the records
    with that id and no other, and keeps the order of the rest. *)
Theorem delete_case_removes_only_that_id (id : string) (d : Database) :
  well_keyed d ->
  get_all_cases (delete_case id d) = without_case_id id (get_all_cases d)
  /\ with_case_id id (get_all_cases (delete_case id d)) = [].
Proof.
  intros H. split; [now apply get_all_cases_deleted|].
  unfold get_all_cases, delete_case. simpl. now apply with_case_id_deleted.
Qed.

Lemma delete_case_removes_only_that_id_witness :
  let d := save_case sample_other (save_case sample_case fresh_db) in
  well_keyed d /\
  get_all_cases (delete_case (case_id sample_case) d) = [sample_other].
Proof.
  assert (well_keyed (save_case sample_other (save_case sample_case fresh_db)))
    as H by (repeat constructor).
  split; [exact H|].
  exact (proj1 (delete_case_removes_only_that_id (case_id sample_case) _ H)).
Defined.

(** X3: deleting a case twice is deleting it once, and deleting an id
    that is not stored changes nothing. *)
Theorem delete_case_twice_or_absent (id : string) (d : Database) :
  delete_case id (delete_case id d) = delete_case id d
  /\ (has_key row_case_id id (cases d) = false -> delete_case id d = d).
Proof.
  unfold delete_case. simpl. split.
  - now rewrite sql_delete_idem.
  - intros H. rewrite sql_delete_absent by exact H. apply database_eta.
Qed.

Lemma delete_case_twice_or_absent_witness :
  let d := save_case sample_other fresh_db in
  has_key row_case_id (case_id sample_case) (cases d) = false /\
  delete_case (case_id sample_case) d = d.
Proof.
  split; [reflexivity|].
  exact (proj2 (delete_case_twice_or_absent (case_id sample_case)
                  (save_case sample_other fresh_db)) eq_refl).
Defined.

(** X4: saving a case under an id that was not stored and deleting it
    again gives back the database as it was. *)
Theorem delete_case_undoes_new_save (c : Case) (d : Database) :
  has_key row_case_id (case_id c) (cases d) = false ->
  delete_case (case_id c) (save_case c d) = d.
Proof.
  intros H. unfold delete_case, save_case, insert_or_replace. simpl.
  rewrite sql_delete_app, sql_delete_idem, sql_delete_absent by exact H.
  simpl. rewrite String.eqb_refl, app_nil_r. apply database_eta.
Qed.

Lemma delete_case_undoes_new_save_witness :
  let d := save_case sample_other fresh_db in
  has_key row_case_id (case_id sample_case) (cases d) = false /\
  delete_case (case_id sample_case) (save_case sample_case d) = d.
Proof.
  split; [reflexivity|].
  exact (delete_case_undoes_new_save sample_case
           (save_case sample_other fresh_db) eq_refl).
Defined.

(** X5: with unique keys, [save_case] adds one row when the id is new
    and keeps the number of rows when it replaces. *)
Theorem save_case_table_size (c : Case) (d : Database) :
  unique_keys row_case_id (cases d) ->
  List.length (cases (save_case c d))
  = if has_key row_case_id (case_id c) (cases d)
    then List.length (cases d) else S (List.length (cases d)).
Proof.
  intros H. unfold save_case, insert_or_replace. simpl.
  rewrite length_app. simpl. rewrite Nat.add_1_r.
  destruct (has_key row_case_id (case_id c) (cases d)) eqn:E.
  - now apply sql_delete_present_length.
  - now rewrite sql_delete_absent.
Qed.

Lemma save_case_table_size_witness :
  let d := save_case sample_other (save_case sample_case fresh_db) in
  unique_keys row_case_id (cases d) /\
  List.length (cases (save_case sample_closed d)) = 2%nat.
Proof.
  assert (unique_keys row_case_id
            (cases (save_case sample_other (save_case sample_case fresh_db))))
    as H.
  { repeat constructor; simpl; intuition discriminate. }
  split; [exact H|].
  exact (save_case_table_size sample_closed _ H).
Defined.

(* ================================================================= *)
(** ** More on the user store and login *)

Lemma bool_of_int_of_bool b : bool_of_int (int_of_bool b) = b.
Proof. now destruct b. Qed.

Lemma get_all_users_deleted n d :
  get_all_users (delete_user n d)
  = filter (fun u => negb (username u =? n)%string) (get_all_users d).
Proof.
  unfold get_all_users, delete_user, sql_delete. simpl.
  induction (users d) as [|row rows IH]; [reflexivity|]. simpl.
  destruct (row_username row =? n)%string; simpl; now rewrite IH.
Qed.

Lemma get_all_users_saved u d :
  get_all_users (save_user u d)
  = (filter (fun v => negb (username v =? username u)%string)
            (get_all_users d) ++ [u])%list.
Proof.
  rewrite <- get_all_users_deleted.
  unfold get_all_users, save_user, delete_user, insert_or_replace. simpl.
  rewrite map_app. simpl. rewrite bool_of_int_of_bool. now destruct u.
Qed.

Lemma with_username_filtered n (us : list User) :
  with_username n (filter (fun v => negb (username v =? n)%string) us) = [].
Proof.
  unfold with_username. induction us as [|u us IH]; [reflexivity|]. simpl.
  destruct (username u =? n)%string eqn:E; simpl; [exact IH|].
  now rewrite E.
Qed.

Lemma find_user_none_if_no_name uname pw (us : list User) :
  with_username uname us = [] -> find_user uname pw us = None.
Proof.
  unfold with_username, find_user. induction us as [|u us IH]; [reflexivity|].
  simpl. destruct (username u =? uname)%string; [discriminate|]. exact IH.
Qed.

Lemma find_user_filtered uname pw (us vs : list User) :
  find_user uname pw
    (filter (fun v => negb (username v =? uname)%string) us ++ vs)
  = find_user uname pw vs.
Proof.
  apply find_user_skip. intros u Hu E.
  apply filter_In in Hu as [_ Hu]. apply negb_true_iff, String.eqb_neq in Hu.
  contradiction.
Qed.

(** X6: [get_all_users] after [save_user] lists the saved user last,
    with every field as saved, and the users of other names as before;
    the saved user is the only one of that name. *)
Theorem save_user_round_trip (u : User) (d : Database) :
  get_all_users (save_user u d)
  = (filter (fun v => negb (username v =? username u)%string)
            (get_all_users d) ++ [u])%list
  /\ with_username (username u) (get_all_users (save_user u d)) = [u].
Proof.
  split; [apply get_all_users_saved|].
  rewrite get_all_users_saved. unfold with_username. rewrite filter_app.
  fold (with_username (username u)
          (filter (fun v => negb (username v =? username u)%string)
                  (get_all_users d))).
  rewrite with_username_filtered. simpl. now rewrite String.eqb_refl.
Qed.

Lemma init_db_adds_admin d :
  has_key row_username "admin" (users d) = false ->
  get_all_users (init_db d) = (get_all_users d ++ [default_admin])%list.
Proof.
  intros H. unfold get_all_users, init_db, insert_or_ignore. simpl.
  now rewrite H, map_app.
Qed.

Lemma init_db_present d :
  has_key row_username "admin" (users d) = true -> init_db d = d.
Proof.
  intros H. unfold init_db, insert_or_ignore. simpl. rewrite H.
  apply database_eta.
Qed.

Lemma init_db_has_admin d :
  has_key row_username "admin" (users (init_db d)) = true.
Proof.
  unfold init_db, insert_or_ignore. simpl.
  destruct (has_key row_username "admin" (users d)) eqn:E; [exact E|].
  unfold has_key. rewrite existsb_app. simpl. apply orb_true_r.
Qed.

(** X7: [init_db] run again changes nothing, and it leaves the row of
    an existing user [admin] as it is, whatever its password. *)
Theorem init_db_idempotent (d : Database) :
  init_db (init_db d) = init_db d
  /\ (has_key row_username "admin" (users d) = true -> init_db d = d).
Proof.
  split; [|apply init_db_present].
  apply init_db_present, init_db_has_admin.
Qed.

Lemma init_db_idempotent_witness :
  let d := save_user (mk_User "admin" "changed" "Admin" "All" true)
                     (init_db fresh_db) in
  has_key row_username "admin" (users d) = true /\ init_db d = d.
Proof.
  split; [reflexivity|].
  exact (proj2 (init_db_idempotent
                  (save_user (mk_User "admin" "changed" "Admin" "All" true)
                             (init_db fresh_db))) eq_refl).
Defined.

Lemma login_page_found uname pw a u :
  uname <> "" -> pw <> "" ->
  find_user uname pw (get_all_users (db a)) = Some u ->
  login_page uname pw a
  = (mk_App (db a)
       (mk_SessionState (current_case (session a)) true (Some "dashboard")
          (Some u) (case_filter (session a)) (new_case_submitted (session a))),
     [st_success "Login successful!"]).
Proof.
  intros Hn Hp Hf. apply truthy_true in Hn, Hp.
  unfold login_page. now rewrite Hn, Hp, Hf.
Qed.

Lemma login_page_not_found uname pw a :
  find_user uname pw (get_all_users (db a)) = None ->
  fst (login_page uname pw a) = a
  /\ ~ In (st_success "Login successful!") (snd (login_page uname pw a)).
Proof.
  intros Hf. unfold login_page. rewrite Hf.
  destruct (truthy uname && truthy pw); simpl; split; try reflexivity;
    intros [E|[]]; discriminate.
Qed.

(** X8: whatever the users table holds, deleting the user [admin] and
    running [init_db] again leaves the default administrator in the
    store, and [admin] / [admin123] logs in. *)
Theorem init_db_restores_deleted_admin (d : Database) (s : SessionState) :
  let d' := init_db (delete_user "admin" d) in
  with_username "admin" (get_all_users d') = [default_admin]
  /\ login_page "admin" "admin123" (mk_App d' s)
     = (mk_App d'
          (mk_SessionState (current_case s) true (Some "dashboard")
             (Some default_admin) (case_filter s) (new_case_submitted s)),
        [st_success "Login successful!"]).
Proof.
  assert (get_all_users (init_db (delete_user "admin" d))
          = (filter (fun v => negb (username v =? "admin")%string)
                    (get_all_users d) ++ [default_admin])%list) as E.
  { rewrite init_db_adds_admin, get_all_users_deleted; [reflexivity|].
    apply (sql_delete_no_key row_username). }
  cbv zeta. split.
  - rewrite E. unfold with_username. rewrite filter_app.
    fold (with_username "admin"
            (filter (fun v => negb (username v =? "admin")%string)
                    (get_all_users d))).
    now rewrite with_username_filtered.
  - apply (login_page_found "admin" "admin123"
             (mk_App (init_db (delete_user "admin" d)) s) default_admin);
      try discriminate.
    cbn [db]. rewrite E. now rewrite find_user_filtered.
Qed.

Lemma find_user_some uname pw us u :
  find_user uname pw us = Some u ->
  In u us /\ username u = uname /\ password u = pw /\ active u = true.
Proof.
  unfold find_user. intros H. apply find_some in H as [Hi Hb].
  apply andb_true_iff in Hb as [Hb Ha]. apply andb_true_iff in Hb as [Hn Hp].
  apply String.eqb_eq in Hn, Hp. auto.
Qed.

Lemma find_user_none uname pw us u :
  find_user uname pw us = None ->
  In u us -> username u = uname -> password u = pw -> active u = false.
Proof.
  unfold find_user. intros H Hi Hn Hp.
  pose proof (find_none _ _ H u Hi) as Hb. cbv beta in Hb.
  rewrite Hn, Hp, !String.eqb_refl in Hb. exact Hb.
Qed.

(** X9: a login succeeds exactly when both fields are filled in and the
    store holds an active user with that name and password; it then
    puts such a user in the session and opens the dashboard, and
    otherwise leaves the application as it was. *)
Theorem login_page_succeeds_iff (uname pw : string) (a : App) :
  (In (st_success "Login successful!") (snd (login_page uname pw a)) <->
   uname <> "" /\ pw <> "" /\
   exists u, In u (get_all_users (db a)) /\ username u = uname
             /\ password u = pw /\ active u = true)
  /\ (In (st_success "Login successful!") (snd (login_page uname pw a)) ->
      exists u, In u (get_all_users (db a)) /\ username u = uname
                /\ password u = pw /\ active u = true
                /\ user (session (fst (login_page uname pw a))) = Some u
                /\ logged_in (session (fst (login_page uname pw a))) = true
                /\ current_page (session (fst (login_page uname pw a)))
                   = Some "dashboard")
  /\ (~ In (st_success "Login successful!") (snd (login_page uname pw a)) ->
      fst (login_page uname pw a) = a).
Proof.
  unfold login_page.
  destruct (truthy uname) eqn:En, (truthy pw) eqn:Ep; simpl;
    try (split; [split; [intros [E|[]]; discriminate
                        |intros (Hn & Hp & _); apply truthy_true in Hn, Hp;
                         congruence]
                |split; [intros [E|[]]; discriminate|reflexivity]]).
  apply truthy_true in En, Ep.
  destruct (find_user uname pw (get_all_users (db a))) as [u|] eqn:Ef; simpl.
  - destruct (find_user_some _ _ _ _ Ef) as (Hi & Hn & Hp & Ha).
    split; [split|split].
    + intros _. repeat split; try assumption. now exists u.
    + intros _. now left.
    + intros _. exists u. repeat split; assumption.
    + intros H. elim H. now left.
  - split; [split|split].
    + intros [E|[]]; discriminate.
    + intros (_ & _ & u & Hi & Hn & Hp & Ha).
      rewrite (find_user_none _ _ _ u Ef Hi Hn Hp) in Ha. discriminate.
    + intros [E|[]]; discriminate.
    + reflexivity.
Qed.

Lemma find_user_app_none n pw (us vs : list User) :
  find_user n pw us = None ->
  find_user n pw (us ++ vs) = find_user n pw vs.
Proof.
  unfold find_user. induction us as [|u us IH]; intros H; [reflexivity|].
  simpl in *. destruct (_ && _); [discriminate|]. now apply IH.
Qed.

Lemma find_user_after_init n pw d :
  find_user n pw (get_all_users d) = None ->
  n <> "admin" \/ has_key row_username "admin" (users d) = true ->
  find_user n pw (get_all_users (init_db d)) = None.
Proof.
  intros Hf H.
  destruct (has_key row_username "admin" (users d)) eqn:Hk.
  - now rewrite init_db_present.
  - destruct H as [H|H]; [|discriminate].
    rewrite init_db_adds_admin by exact Hk.
    rewrite find_user_app_none by exact Hf.
    unfold find_user, default_admin. cbn [find username].
    assert (("admin" =? n)%string = false) as ->
        by (apply String.eqb_neq; congruence).
    reflexivity.
Qed.

Lemma run_login_fails n pw s :
  logged_in (session (app s)) = false ->
  find_user n pw (get_all_users (init_db (db (app s)))) = None ->
  logged_in (session (app (run (ev_login n pw) s))) = false.
Proof.
  intros Hl Hf. unfold run. cbn [with_app app session db]. rewrite Hl.
  cbn [negb with_app app].
  rewrite (proj1 (login_page_not_found n pw
                    (mk_App (init_db (db (app s))) (session (app s))) Hf)).
  exact Hl.
Qed.

(** X10: in a script run (which starts with [init_db]), no login
    succeeds under the name of a user just saved as inactive, nor under
    the name of a user just deleted unless that name is [admin],
    whatever password is given. *)
Theorem inactive_or_deleted_user_cannot_log_in
        (u : User) (pw : string) (d : Database) (s : UserPages) :
  logged_in (session (app s)) = false ->
  (db (app s) = save_user u d -> active u = false ->
   logged_in (session (app (run (ev_login (username u) pw) s))) = false)
  /\ (db (app s) = delete_user (username u) d -> username u <> "admin" ->
      logged_in (session (app (run (ev_login (username u) pw) s))) = false).
Proof.
  intros Hl. split.
  - intros Hd Ha. apply run_login_fails; [exact Hl|]. rewrite Hd.
    apply find_user_after_init.
    + rewrite get_all_users_saved, find_user_filtered.
      unfold find_user. simpl. now rewrite Ha, andb_false_r.
    + destruct (string_dec (username u) "admin") as [E|E]; [right|now left].
      unfold save_user, insert_or_replace, has_key. cbn [users].
      rewrite existsb_app. cbn [existsb row_username].
      apply String.eqb_eq in E. now rewrite E, orb_true_r.
  - intros Hd Hn. apply run_login_fails; [exact Hl|]. rewrite Hd.
    apply find_user_after_init; [|now left].
    apply find_user_none_if_no_name. rewrite get_all_users_deleted.
    apply with_username_filtered.
Qed.

Lemma inactive_or_deleted_user_cannot_log_in_witness :
  let s := initialize_session_state (delete_user "mwila" (db sample_app)) in
  logged_in (session (app s)) = false /\
  logged_in (session (app (run (ev_login "mwila" "s3cret") s))) = false.
Proof.
  split; [reflexivity|].
  exact (proj2 (inactive_or_deleted_user_cannot_log_in sample_agent "s3cret"
                  (db sample_app)
                  (initialize_session_state
                     (delete_user "mwila" (db sample_app)))
                  eq_refl) eq_refl ltac:(discriminate)).
Defined.

(* ================================================================= *)
(** ** The user pages *)

Lemma existsb_username n (us : list User) :
  existsb (fun u => (username u =? n)%string) us = false <->
  forall v, In v us -> username v <> n.
Proof.
  split.
  - intros H v Hv E.
    assert (existsb (fun u => (username u =? n)%string) us = true) as X.
    { apply existsb_exists. exists v. split; [exact Hv|].
      now apply String.eqb_eq. }
    congruence.
  - intros H. destruct (existsb _ us) eqn:E; [|reflexivity].
    apply existsb_exists in E as (v & Hv & Ev).
    apply String.eqb_eq in Ev. now elim (H v Hv).
Qed.

Lemma filter_other_names n (us : list User) :
  (forall v, In v us -> username v <> n) ->
  filter (fun v => negb (username v =? n)%string) us = us.
Proof.
  induction us as [|u us IH]; intros H; [reflexivity|]. simpl.
  assert ((username u =? n)%string = false) as ->
      by (apply String.eqb_neq, H; now left).
  simpl. rewrite IH; [reflexivity|]. intros v Hv. apply H. now right.
Qed.

Lemma user_management_denied act s me :
  user (session (app s)) = Some me ->
  user_role me <> "Admin" ->
  user_management act s
  = (s, [st_warning "You don't have permission to access this page"]).
Proof.
  intros Hu Hr. unfold user_management. rewrite Hu.
  apply String.eqb_neq in Hr. now rewrite Hr.
Qed.

(** X11: for a session user whose role is not [Admin], the user
    management page does nothing but warn, whatever is submitted or
    clicked. *)
Theorem user_management_needs_admin
        (act : UserAction) (s : UserPages) (me : User) :
  user (session (app s)) = Some me ->
  user_role me <> "Admin" ->
  user_management act s
  = (s, [st_warning "You don't have permission to access this page"]).
Proof. apply user_management_denied. Qed.

Lemma user_management_needs_admin_witness :
  let s := mk_UserPages sample_app [default_admin; sample_agent] None in
  user (session (app s)) = Some sample_agent /\
  user_role sample_agent <> "Admin" /\
  fst (user_management (click_delete_user 0) s) = s.
Proof.
  assert (user_role sample_agent <> "Admin") as H by discriminate.
  split; [reflexivity|]. split; [exact H|].
  rewrite (user_management_needs_admin (click_delete_user 0)
             (mk_UserPages sample_app [default_admin; sample_agent] None)
             sample_agent eq_refl H).
  reflexivity.
Defined.

(** X12: an administrator adding a user with both fields filled in and
    a name not yet stored appends that user, active, to the store,
    leaves the other users, the cases and the session as they were,
    refreshes the cached list, and the new user can log in. *)
Theorem add_user_appends
        (n p r g : string) (s : UserPages) (me : User) :
  user (session (app s)) = Some me ->
  user_role me = "Admin" ->
  n <> "" -> p <> "" ->
  (forall v, In v (get_all_users (db (app s))) -> username v <> n) ->
  let s' := fst (user_management (add_user n p r g) s) in
  get_all_users (db (app s'))
  = (get_all_users (db (app s)) ++ [mk_User n p r g true])%list
  /\ cached_users s' = get_all_users (db (app s'))
  /\ cases (db (app s')) = cases (db (app s))
  /\ session (app s') = session (app s)
  /\ In (st_success "Login successful!") (snd (login_page n p (app s'))).
Proof.
  intros Hu Hr Hn Hp Hf. unfold user_management. rewrite Hu, Hr.
  pose proof Hn as Tn. pose proof Hp as Tp. apply truthy_true in Tn, Tp.
  cbn [String.eqb Ascii.eqb Bool.eqb negb]. rewrite Tn, Tp.
  rewrite (proj2 (existsb_username n _) Hf). cbn [andb fst app db session].
  assert (get_all_users (save_user (mk_User n p r g true) (db (app s)))
          = (get_all_users (db (app s)) ++ [mk_User n p r g true])%list) as E.
  { rewrite get_all_users_saved. cbn [username].
    now rewrite filter_other_names. }
  repeat split; try exact E.
  rewrite (login_page_found n p _ (mk_User n p r g true) Hn Hp).
  - now left.
  - cbn [db]. rewrite E, find_user_skip by exact Hf.
    unfold find_user. simpl. now rewrite !String.eqb_refl.
Qed.

Lemma add_user_appends_witness :
  user (session (app sample_admin_pages)) = Some default_admin /\
  get_all_users
    (db (app (fst (user_management
                     (add_user "bwalya" "pa55" "Manager" "Copperbelt")
                     sample_admin_pages))))
  = [default_admin; sample_manager].
Proof.
  split; [reflexivity|].
  refine (proj1 (add_user_appends "bwalya" "pa55" "Manager" "Copperbelt"
                   sample_admin_pages default_admin eq_refl eq_refl _ _ _));
    try discriminate.
  intros v [<-|[]]. discriminate.
Defined.

(** X13: the Add User form changes nothing when the name or the
    password is empty or the name is already stored: an existing user is
    never overwritten by it. *)
Theorem add_user_rejects (n p r g : string) (s : UserPages) :
  n = "" \/ p = "" \/
  (exists v, In v (get_all_users (db (app s))) /\ username v = n) ->
  fst (user_management (add_user n p r g) s) = s
  /\ ~ In (shown (st_success "User added successfully!"))
         (snd (user_management (add_user n p r g) s)).
Proof.
  intros H. unfold user_management.
  destruct (user (session (app s))) as [me|];
    [|split; [reflexivity|intros [E|[]]; discriminate]].
  destruct (negb (user_role me =? "Admin")%string);
    [split; [reflexivity|intros [E|[]]; discriminate]|].
  destruct (truthy n && truthy p) eqn:Et;
    [|split; [reflexivity|intros [E|[]]; discriminate]].
  apply andb_true_iff in Et as [Tn Tp]. apply truthy_true in Tn, Tp.
  destruct H as [H|[H|(v & Hv & Ev)]]; try contradiction.
  destruct (existsb _ _) eqn:Ee.
  - split; [reflexivity|intros [E|[]]; discriminate].
  - rewrite existsb_username in Ee. now elim (Ee v Hv).
Qed.

Lemma add_user_rejects_witness :
  (exists v, In v (get_all_users (db (app sample_admin_pages)))
             /\ username v = "admin") /\
  fst (user_management (add_user "admin" "mine" "Agent" "All")
                       sample_admin_pages) = sample_admin_pages.
Proof.
  assert (exists v, In v (get_all_users (db (app sample_admin_pages)))
                    /\ username v = "admin") as H.
  { exists default_admin. split; [now left|reflexivity]. }
  split; [exact H|].
  exact (proj1 (add_user_rejects "admin" "mine" "Agent" "All"
                  sample_admin_pages (or_intror (or_intror H)))).
Defined.

(** X14: Save Changes with matching passwords, for a user whose stored
    role and region are options of the form, rewrites that user under
    the same name with the values of the form, leaves the users of
    other names and the logged-in identity of the session as they were,
    refreshes the cached list and returns to the user list. *)
Theorem edit_user_saves (f : EditUserForm) (s : UserPages) (u : User) :
  editing_user s = Some u ->
  In (user_role u) USER_ROLES ->
  In (user_region u) ("All" :: REGIONS) ->
  save_changes f = true ->
  new_password f = confirm_password f ->
  let s' := fst (edit_user f s) in
  let updated := mk_User (username u) (new_password f) (new_role f)
                         (new_region f) (active_box f) in
  get_all_users (db (app s'))
  = (filter (fun v => negb (username v =? username u)%string)
            (get_all_users (db (app s))) ++ [updated])%list
  /\ cached_users s' = get_all_users (db (app s'))
  /\ cases (db (app s')) = cases (db (app s))
  /\ user (session (app s')) = user (session (app s))
  /\ logged_in (session (app s')) = logged_in (session (app s))
  /\ current_page (session (app s')) = Some "user_management".
Proof.
  intros He Hr Hg Hs Hp. unfold edit_user. rewrite He.
  assert (py_in (user_role u) USER_ROLES = true) as ->.
  { unfold py_in. apply existsb_exists. exists (user_role u).
    split; [exact Hr|apply String.eqb_refl]. }
  assert (py_in (user_region u) ("All" :: REGIONS) = true) as ->.
  { unfold py_in. apply existsb_exists. exists (user_region u).
    split; [exact Hg|apply String.eqb_refl]. }
  assert ((new_password f =? confirm_password f)%string = true) as ->
      by (now apply String.eqb_eq).
  rewrite Hs. cbn [negb orb fst app db session].
  repeat split. now rewrite get_all_users_saved.
Qed.

Lemma edit_user_saves_witness :
  let s := mk_UserPages (app sample_admin_pages) [default_admin]
                        (Some default_admin) in
  let f := mk_EditUserForm "n3w" "n3w" "Admin" "All" true true false in
  editing_user s = Some default_admin /\
  save_changes f = true /\ new_password f = confirm_password f /\
  get_all_users (db (app (fst (edit_user f s))))
  = [mk_User "admin" "n3w" "Admin" "All" true].
Proof.
  split; [reflexivity|]. split; [reflexivity|]. split; [reflexivity|].
  refine (proj1 (edit_user_saves
                   (mk_EditUserForm "n3w" "n3w" "Admin" "All" true true false)
                   (mk_UserPages (app sample_admin_pages) [default_admin]
                                 (Some default_admin))
                   default_admin eq_refl _ _ eq_refl eq_refl)).
  - now left.
  - now left.
Defined.

(** X15: [edit_user] writes to the store only on Save Changes with
    matching passwords: with no user under edit, on Cancel, on no
    button, or when the two passwords differ, the database and the
    cached list stay as they were. *)
Theorem edit_user_writes_only_on_matching_save
        (f : EditUserForm) (s : UserPages) :
  editing_user s = None \/ save_changes f = false
  \/ new_password f <> confirm_password f ->
  db (app (fst (edit_user f s))) = db (app s)
  /\ cached_users (fst (edit_user f s)) = cached_users s
  /\ ~ In (shown (st_success "User updated successfully!"))
         (snd (edit_user f s)).
Proof.
  intros H. unfold edit_user.
  destruct (editing_user s) as [u|];
    [|repeat split; intros [E|[]]; discriminate].
  destruct (negb (py_in (user_role u) USER_ROLES)
            || negb (py_in (user_region u) ("All" :: REGIONS)));
    [repeat split; intros [E|[]]; discriminate|].
  destruct H as [H|[H|H]]; [discriminate| |].
  - rewrite H. destruct (cancel f); repeat split; intros [].
  - apply String.eqb_neq in H. rewrite H.
    destruct (save_changes f);
      [repeat split; intros [E|[]]; discriminate|].
    destruct (cancel f); repeat split; intros [].
Qed.

Lemma edit_user_writes_only_on_matching_save_witness :
  let s := mk_UserPages (app sample_admin_pages) [default_admin]
                        (Some default_admin) in
  let f := mk_EditUserForm "n3w" "new" "Admin" "All" true true false in
  new_password f <> confirm_password f /\
  db (app (fst (edit_user f s))) = db (app s).
Proof.
  assert ("n3w" <> "new") as H by discriminate.
  split; [exact H|].
  exact (proj1 (edit_user_writes_only_on_matching_save
           (mk_EditUserForm "n3w" "new" "Admin" "All" true true false)
           (mk_UserPages (app sample_admin_pages) [default_admin]
                         (Some default_admin))
           (or_intror (or_intror H)))).
Defined.

(** X16: the Delete button of a listed user, pressed by an
    administrator, removes the users of that name from the store and
    no other, refreshes the cached list and leaves the session as it
    is, also when the deleted user is the one logged in. *)
Theorem click_delete_user_removes
        (i : nat) (s : UserPages) (me u : User) :
  user (session (app s)) = Some me ->
  user_role me = "Admin" ->
  nth_error (cached_users s) i = Some u ->
  let s' := fst (user_management (click_delete_user i) s) in
  get_all_users (db (app s'))
  = filter (fun v => negb (username v =? username u)%string)
           (get_all_users (db (app s)))
  /\ cached_users s' = get_all_users (db (app s'))
  /\ cases (db (app s')) = cases (db (app s))
  /\ session (app s') = session (app s).
Proof.
  intros Hu Hr Hi. unfold user_management. rewrite Hu, Hr, Hi.
  cbn [String.eqb Ascii.eqb Bool.eqb negb fst app db session].
  repeat split. apply get_all_users_deleted.
Qed.

Lemma click_delete_user_removes_witness :
  user (session (app sample_admin_pages)) = Some default_admin /\
  nth_error (cached_users sample_admin_pages) 0 = Some default_admin /\
  get_all_users
    (db (app (fst (user_management (click_delete_user 0)
                                   sample_admin_pages)))) = [].
Proof.
  split; [reflexivity|]. split; [reflexivity|].
  exact (proj1 (click_delete_user_removes 0 sample_admin_pages default_admin
                  default_admin eq_refl eq_refl eq_refl)).
Defined.

(* ================================================================= *)
(** ** Who can change the users table *)

Lemma guarded_same_key (s s' : SessionState) :
  logged_in s' = logged_in s -> user s' = user s ->
  current_page s' = current_page s ->
  admin_pages_guarded s -> admin_pages_guarded s'.
Proof.
  unfold admin_pages_guarded. intros -> -> ->. auto.
Qed.

Lemma login_page_db uname pw a : db (fst (login_page uname pw a)) = db a.
Proof.
  unfold login_page. destruct (truthy uname && truthy pw); [|reflexivity].
  now destruct (find_user _ _ _).
Qed.

Lemma login_page_guarded uname pw a :
  logged_in (session a) = false ->
  admin_pages_guarded (session (fst (login_page uname pw a))).
Proof.
  intros Hl. unfold login_page.
  destruct (truthy uname && truthy pw);
    [|intros H; simpl in H; congruence].
  destruct (find_user _ _ _) as [u|]; [|intros H; simpl in H; congruence].
  intros _. exists u. split; [reflexivity|]. right. simpl.
  split; discriminate.
Qed.

Lemma resolve_case_session case f now a :
  logged_in (session (app_after (resolve_case case f now a)))
  = logged_in (session a)
  /\ user (session (app_after (resolve_case case f now a))) = user (session a)
  /\ current_page (session (app_after (resolve_case case f now a)))
     = current_page (session a)
  /\ users (db (app_after (resolve_case case f now a))) = users (db a).
Proof.
  unfold resolve_case.
  destruct (close f || escalate f); [|now repeat split].
  destruct (negb (truthy (resolution_notes f))); now repeat split.
Qed.

Lemma new_case_form_session f e a :
  logged_in (session (fst (new_case_form f e a))) = logged_in (session a)
  /\ user (session (fst (new_case_form f e a))) = user (session a)
  /\ current_page (session (fst (new_case_form f e a)))
     = current_page (session a)
  /\ users (db (fst (new_case_form f e a))) = users (db a).
Proof.
  unfold new_case_form.
  repeat match goal with
         | |- context [if ?b then _ else _] => destruct b
         end; try now repeat split.
  destruct (create_new_case _ _ _); now repeat split.
Qed.

Lemma user_management_guarded act s :
  admin_pages_guarded (session (app s)) ->
  admin_pages_guarded (session (app (fst (user_management act s)))).
Proof.
  intros H. unfold user_management.
  destruct (user (session (app s))) as [me|] eqn:Hu; [|exact H].
  destruct (user_role me =? "Admin")%string eqn:Hr; [|exact H].
  apply String.eqb_eq in Hr. simpl.
  destruct act as [|n p r g|i|i]; [exact H| | |].
  - destruct (truthy n && truthy p); [|exact H].
    destruct (existsb _ _); [exact H|]. exact H.
  - destruct (nth_error _ _); [|exact H].
    intros Hl. simpl in *. exists me. split; [exact Hu|now left].
  - destruct (nth_error _ _); exact H.
Qed.

Lemma edit_user_guarded f s me :
  user (session (app s)) = Some me -> user_role me = "Admin" ->
  admin_pages_guarded (session (app (fst (edit_user f s)))).
Proof.
  intros Hu Hr. unfold edit_user.
  assert (forall a, user (session a) = Some me ->
                    admin_pages_guarded (session a)) as G.
  { intros a Ha _. exists me. split; [exact Ha|now left]. }
  destruct (editing_user s); [|now apply G].
  destruct (_ || _); [now apply G|].
  destruct (save_changes f).
  - destruct (_ =? _)%string; now apply G.
  - destruct (cancel f); now apply G.
Qed.

Lemma main_page_admin_pages (s : SessionState) :
  (main_page s = user_management_page ->
   current_page s = Some "user_management")
  /\ (main_page s = edit_user_page -> current_page s = Some "edit_user").
Proof.
  unfold main_page. destruct (current_case s); [split; discriminate|].
  destruct (current_page s) as [p|]; [|split; discriminate].
  destruct (p =? "dashboard")%string; [split; discriminate|].
  destruct (p =? "user_management")%string eqn:E1.
  - apply String.eqb_eq in E1. subst. split; [reflexivity|discriminate].
  - destruct (p =? "edit_user")%string eqn:E2; [|split; discriminate].
    apply String.eqb_eq in E2. subst. split; [discriminate|reflexivity].
Qed.

Lemma nav_options_not_admin me page :
  user_role me <> "Admin" -> py_in page (nav_options me) = true ->
  page = "dashboard" \/ page = "new_case".
Proof.
  intros Hr. apply String.eqb_neq in Hr. unfold nav_options, py_in.
  rewrite Hr. simpl. rewrite !orb_true_iff, !String.eqb_eq.
  intros [H|[H|H]]; [now left|now right|discriminate].
Qed.

Lemma run_guarded ev s :
  admin_pages_guarded (session (app s)) ->
  admin_pages_guarded (session (app (run ev s))).
Proof.
  intros H. unfold run. cbn [with_app app session db].
  destruct (logged_in (session (app s))) eqn:Hl; cbn [negb].
  2:{ destruct ev; try (intros X; simpl in X; congruence).
      cbn [with_app app]. now apply login_page_guarded. }
  destruct (H Hl) as (me & Hu & Hd).
  unfold main. cbn [with_app app session db]. rewrite Hu.
  destruct ev as [n p|page| |f now|flt i|flt i|f e|act|f].
  - destruct (main_page _); exact H.
  - destruct (py_in page (nav_options me)) eqn:Hp; [|exact H].
    intros _. exists me. split; [exact Hu|].
    destruct (string_dec (user_role me) "Admin") as [Ha|Ha]; [now left|].
    right. cbn. destruct (nav_options_not_admin me page Ha Hp) as [->| ->];
      split; discriminate.
  - intros X. simpl in X. discriminate.
  - destruct (main_page _); try exact H. cbn [with_app app].
    destruct (resolve_case_session case f now
                (mk_App (init_db (db (app s))) (session (app s))))
      as (E1 & E2 & E3 & _).
    eapply guarded_same_key; [exact E1|exact E2|exact E3|exact H].
  - destruct (main_page _); try exact H.
    destruct (get_all_cases _); [exact H|].
    destruct (nth_error _ _); exact H.
  - destruct (main_page _); try exact H.
    destruct (get_all_cases _); [exact H|].
    destruct (nth_error _ _); exact H.
  - destruct (main_page _); try exact H. cbn [with_app app].
    destruct (new_case_form_session f e
                (mk_App (init_db (db (app s))) (session (app s))))
      as (E1 & E2 & E3 & _).
    eapply guarded_same_key; [exact E1|exact E2|exact E3|exact H].
  - destruct (main_page _); try exact H.
    now apply user_management_guarded.
  - destruct (main_page (session (app s))) eqn:Hm; try exact H.
    apply (proj2 (main_page_admin_pages _)) in Hm.
    destruct Hd as [Ha|[_ Hd]]; [|contradiction].
    now apply (edit_user_guarded f _ me).
Qed.

Lemma session_reaches_guarded s :
  session_reaches s -> admin_pages_guarded (session (app s)).
Proof.
  induction 1 as [d|ev s _ IH].
  - intros H. discriminate.
  - now apply run_guarded.
Qed.

(** X17: in every state a browser session reaches, a run of the script
    in which no administrator is logged in leaves the users table as
    [init_db] leaves it, whatever the user does: only an administrator
    adds, edits or deletes users. *)
Theorem users_table_changes_need_admin (ev : Event) (s : UserPages) :
  session_reaches s ->
  is_admin (acting_user s) = false ->
  users (db (app (run ev s))) = users (init_db (db (app s))).
Proof.
  intros Hs Ha. pose proof (session_reaches_guarded s Hs) as G.
  unfold acting_user in Ha. unfold run. cbn [with_app app session db].
  destruct (logged_in (session (app s))) eqn:Hl; cbn [negb].
  2:{ destruct ev; try reflexivity. cbn [with_app app].
      now rewrite login_page_db. }
  destruct (G Hl) as (me & Hu & Hd). rewrite Hu in Ha. simpl in Ha.
  apply String.eqb_neq in Ha.
  destruct Hd as [Hd|[Hd1 Hd2]]; [contradiction|].
  unfold main. cbn [with_app app session db]. rewrite Hu.
  destruct ev as [n p|page| |f now|flt i|flt i|f e|act|f].
  - now destruct (main_page _).
  - now destruct (py_in page (nav_options me)).
  - reflexivity.
  - destruct (main_page _); try reflexivity. cbn [with_app app].
    now destruct (resolve_case_session case f now
                    (mk_App (init_db (db (app s))) (session (app s))))
      as (_ & _ & _ & ->).
  - destruct (main_page _); try reflexivity.
    destruct (get_all_cases _); [reflexivity|].
    now destruct (nth_error _ _).
  - destruct (main_page _); try reflexivity.
    destruct (get_all_cases _); [reflexivity|].
    now destruct (nth_error _ _).
  - destruct (main_page _); try reflexivity. cbn [with_app app].
    now destruct (new_case_form_session f e
                    (mk_App (init_db (db (app s))) (session (app s))))
      as (_ & _ & _ & ->).
  - destruct (main_page _); try reflexivity.
    rewrite (user_management_denied act _ me); [reflexivity|exact Hu|].
    exact Ha.
  - destruct (main_page (session (app s))) eqn:Hm; try reflexivity.
    apply (proj2 (main_page_admin_pages _)) in Hm. contradiction.
Qed.

Lemma users_table_changes_need_admin_witness :
  let s := run (ev_nav "user_management")
             (run (ev_login "mwila" "s3cret")
                  (initialize_session_state (init_db (db sample_app)))) in
  session_reaches s /\ is_admin (acting_user s) = false /\
  users (db (app (run (ev_users (click_delete_user 0)) s)))
  = users (init_db (db (app s))).
Proof.
  assert (session_reaches
            (run (ev_nav "user_management")
               (run (ev_login "mwila" "s3cret")
                    (initialize_session_state (init_db (db sample_app))))))
    as H by (repeat constructor).
  split; [exact H|]. split; [reflexivity|].
  exact (users_table_changes_need_admin (ev_users (click_delete_user 0)) _ H
           eq_refl).
Defined.

(* ================================================================= *)
(** ** More on creating a case *)

Lemma new_case_form_saved f e a u :
  user (session a) = Some u ->
  form_complete f ->
  exists c,
    create_new_case (form_data_of f) e (session a) = Some c
    /\ new_case_form f e a
       = (mk_App (save_case c (db a))
                 (set_current_case (Some c)
                    (set_new_case_submitted true (session a))),
          []).
Proof.
  intros Hu Hf.
  destruct (create_new_case (form_data_of f) e (session a)) as [c|] eqn:Ec.
  2:{ unfold create_new_case in Ec. rewrite Hu in Ec.
      destruct (truthy _) in Ec; discriminate. }
  exists c. split; [reflexivity|].
  destruct (form_complete_passes f Hf) as (H1 & H2 & H3 & H4).
  unfold new_case_form. now rewrite H1, H2, H3, H4, Ec.
Qed.

Lemma new_case_form_first_failed f e a msg :
  first_failed_check f = Some msg ->
  new_case_form f e a = (a, [st_error msg]).
Proof.
  unfold first_failed_check, new_case_form, validate_case_form, truthy, py_in.
  simpl. intros H.
  repeat match type of H with
         | context [(?x =? ?y)%string] =>
             destruct (x =? y)%string; simpl in *;
             try discriminate; try (injection H as <-; reflexivity)
         end.
Qed.

(** X18: a submitted form that fails a check leaves the database and
    every session key but [form_data] as they were, keeps the submitted
    values under [form_data], and shows the message of the first failed
    check, in the order required fields, agent number, phone number,
    e-mail address. *)
Theorem new_case_form_reports_first_failed_check
        (f : CaseForm) (e : Entropy) (s : CasePages) (msg : string) :
  first_failed_check f = Some msg ->
  submit_case_form f e s
  = (mk_CasePages (form_app s) (Some (form_data_of f)), [st_error msg]).
Proof.
  intros H. unfold submit_case_form.
  now rewrite (new_case_form_first_failed f e (form_app s) msg H).
Qed.

Lemma new_case_form_reports_first_failed_check_witness :
  let f := mk_CaseForm "WhatsApp" "Chanda Phiri" "Agent" "" ""
             (mk_datetime 2024 1 1 10 0 0) "" "Lusaka" "Float" "No float" ""
             [] in
  first_failed_check f = Some "Agent number is required for Agent role" /\
  submit_case_form f sample_entropy (mk_CasePages sample_app None)
  = (mk_CasePages sample_app (Some (form_data_of f)),
     [st_error "Agent number is required for Agent role"]).
Proof.
  split; [reflexivity|].
  exact (new_case_form_reports_first_failed_check
           (mk_CaseForm "WhatsApp" "Chanda Phiri" "Agent" "" ""
              (mk_datetime 2024 1 1 10 0 0) "" "Lusaka" "Float" "No float" ""
              [])
           sample_entropy (mk_CasePages sample_app None) _ eq_refl).
Defined.

(** X19: the case made from a complete form carries the phone number
    as contact for WhatsApp and Voice Call and the e-mail address for
    Email, a [received] time only for WhatsApp, an agent number only for
    the role Agent, no attachment for Voice Call, and no [resolved]
    time. *)
Theorem created_case_channel_fields
        (f : CaseForm) (e : Entropy) (s : SessionState) (c : Case) :
  form_complete f ->
  create_new_case (form_data_of f) e s = Some c ->
  (w_channel f = "WhatsApp" \/ w_channel f = "Voice Call" ->
   contact (reporter c) = Some (w_phone f))
  /\ (w_channel f = "Email" -> contact (reporter c) = Some (w_email f))
  /\ received (timestamps c)
     = (if (w_channel f =? "WhatsApp")%string
        then Some (strftime (w_received f)) else None)
  /\ agent_number (reporter c)
     = (if (w_role f =? "Agent")%string then Some (w_agent_num f) else None)
  /\ (w_channel f = "Voice Call" -> attachments (issue c) = [])
  /\ resolved (timestamps c) = None.
Proof.
  intros (_ & _ & _ & _ & _ & _ & Hp & He) Hc.
  unfold create_new_case in Hc. destruct (user s); [|discriminate].
  assert (c = set_resolution (resolution c)
                (mk_Case (generate_case_id (now_id e) (uuid4 e))
                   (fd_channel (form_data_of f))
                   (mk_CaseTimestamps (fd_received_time (form_data_of f))
                      (strftime (now_logged e)) None)
                   (mk_CaseReporter (fd_name (form_data_of f))
                      (fd_role (form_data_of f))
                      (fd_agent_num (form_data_of f))
                      (py_or (fd_phone (form_data_of f))
                             (fd_email (form_data_of f))))
                   (fd_region (form_data_of f))
                   (mk_CaseIssue (fd_issue_type (form_data_of f))
                      (fd_description (form_data_of f))
                      (fd_attachments (form_data_of f)))
                   "Open" None (username u))) as ->.
  { destruct (truthy _) in Hc; inversion Hc; reflexivity. }
  cbn [set_resolution reporter contact timestamps received resolved
       agent_number issue attachments form_data_of fd_channel
       fd_received_time fd_agent_num fd_phone fd_email fd_attachments].
  repeat split.
  - intros [E|E]; rewrite E; cbn; unfold py_or; cbn;
      rewrite (proj2 (truthy_true _)); auto.
  - intros E. rewrite E. cbn. reflexivity.
  - intros E. rewrite E. reflexivity.
Qed.

Lemma created_case_channel_fields_witness :
  form_complete sample_voice_form /\
  exists c,
    create_new_case (form_data_of sample_voice_form) sample_entropy
                    (session sample_app) = Some c
    /\ contact (reporter c) = Some "+260960000000"
    /\ attachments (issue c) = [].
Proof.
  assert (form_complete sample_voice_form) as Hf.
  { unfold form_complete, sample_voice_form. simpl.
    repeat split; discriminate. }
  split; [exact Hf|].
  eexists. split; [reflexivity|].
  pose proof (created_case_channel_fields sample_voice_form sample_entropy
                (session sample_app) _ Hf eq_refl) as (H1 & _ & _ & _ & H5 & _).
  split; [apply H1; now right|now apply H5].
Defined.

Lemma strftime_truthy t : truthy (strftime t) = true.
Proof. reflexivity. Qed.

(** X20: a case filed through the form at a clock reading [n] seconds
    after the message time of the form (both from the year 1000 on)
    shows a WhatsApp response time exactly when its channel is WhatsApp,
    and the time is [n / 60] minutes in binary64. *)
Theorem created_case_response_time
        (f : CaseForm) (e : Entropy) (s : SessionState) (c : Case) (n : nat) :
  valid_datetime (w_received f) = true ->
  valid_datetime (now_logged e) = true ->
  1000 <= year (w_received f) <= year (now_logged e) ->
  now_logged e = Nat.iter n next_second (w_received f) ->
  create_new_case (form_data_of f) e s = Some c ->
  response_mins c
  = if (w_channel f =? "WhatsApp")%string
    then Some (PrimFloat.div
                 (PrimFloat.of_uint63 (Uint63.of_Z (Z.of_nat n)))
                 (PrimFloat.of_uint63 60%uint63))
    else None.
Proof.
  intros Hr Hl _ Hn Hc.
  assert (channel c = w_channel f
          /\ received (timestamps c)
             = (if (w_channel f =? "WhatsApp")%string
                then Some (strftime (w_received f)) else None)
          /\ logged (timestamps c) = strftime (now_logged e)) as (E1 & E2 & E3).
  { unfold create_new_case in Hc. destruct (user s); [|discriminate].
    destruct (truthy _) in Hc; inversion Hc; now repeat split. }
  unfold response_mins. rewrite E1, E2, E3.
  destruct (w_channel f =? "WhatsApp")%string; [|reflexivity].
  cbn [truthy_opt andb]. rewrite strftime_truthy.
  rewrite !strptime_strftime by assumption. rewrite Hn.
  rewrite seconds_between_counts by (now apply valid_on_calendar).
  now rewrite float_of_Z_nonneg by lia.
Qed.

Lemma created_case_response_time_witness :
  valid_datetime (w_received sample_form) = true /\
  valid_datetime (now_logged sample_entropy) = true /\
  now_logged sample_entropy = Nat.iter 900 next_second (w_received sample_form)
  /\ response_mins created_case = Some 15%float.
Proof.
  split; [reflexivity|]. split; [reflexivity|]. split; [reflexivity|].
  exact (created_case_response_time sample_form sample_entropy
           (session sample_app) created_case 900 eq_refl eq_refl
           ltac:(cbn; lia) eq_refl eq_refl).
Defined.

(** The id depends on the date of the clock reading and on the 32 most
    significant bits of the UUID only. *)
Lemma generate_case_id_top_bits now1 now2 u1 u2 :
  strftime_Ymd now1 = strftime_Ymd now2 ->
  N.shiftr u1 96 = N.shiftr u2 96 ->
  generate_case_id now1 u1 = generate_case_id now2 u2.
Proof.
  intros Hd Hu. unfold generate_case_id. rewrite Hd, !uuid_str_prefix.
  change 124%N with (96 + 28)%N. change 120%N with (96 + 24)%N.
  change 116%N with (96 + 20)%N. change 112%N with (96 + 16)%N.
  change 108%N with (96 + 12)%N. change 104%N with (96 + 8)%N.
  change 100%N with (96 + 4)%N.
  rewrite !shiftr_above_96, Hu. reflexivity.
Qed.

Lemma without_case_id_idem id (cs : list Case) :
  without_case_id id (without_case_id id cs) = without_case_id id cs.
Proof.
  unfold without_case_id. induction cs as [|c cs IH]; [reflexivity|]. simpl.
  destruct (case_id c =? id)%string eqn:E; simpl; [exact IH|].
  now rewrite E, IH.
Qed.

(** X21: the id of a case is not unique by construction.  Two complete
    forms submitted on the same day with UUIDs that agree in their 32
    most significant bits get the same id, and the second case takes the
    place of the first in the store. *)
Theorem colliding_case_id_replaces_stored_case
        (f1 f2 : CaseForm) (e1 e2 : Entropy) (a : App) (u : User) :
  user (session a) = Some u ->
  form_complete f1 -> form_complete f2 ->
  well_keyed (db a) ->
  strftime_Ymd (now_id e1) = strftime_Ymd (now_id e2) ->
  N.shiftr (uuid4 e1) 96 = N.shiftr (uuid4 e2) 96 ->
  let a1 := fst (new_case_form f1 e1 a) in
  let a2 := fst (new_case_form f2 e2 a1) in
  exists c1 c2,
    create_new_case (form_data_of f1) e1 (session a) = Some c1
    /\ create_new_case (form_data_of f2) e2 (session a1) = Some c2
    /\ case_id c1 = case_id c2
    /\ get_all_cases (db a2)
       = (without_case_id (case_id c2) (get_all_cases (db a)) ++ [c2])%list.
Proof.
  intros Hu H1 H2 Hw Hd Hb. cbv zeta.
  destruct (new_case_form_saved f1 e1 a u Hu H1) as (c1 & Ec1 & ->).
  cbn [fst].
  destruct (new_case_form_saved f2 e2
              (mk_App (save_case c1 (db a))
                 (set_current_case (Some c1)
                    (set_new_case_submitted true (session a)))) u Hu H2)
    as (c2 & Ec2 & ->).
  exists c1, c2. cbn [fst db].
  assert (case_id c1 = case_id c2) as Ei.
  { destruct (create_new_case_fields _ _ _ _ _ Hu Ec1) as (_ & -> & _).
    destruct (create_new_case_fields _ _ _ _ _ Hu Ec2) as (_ & -> & _).
    now apply generate_case_id_top_bits. }
  repeat split; try assumption.
  rewrite get_all_cases_saved by (now apply well_keyed_save).
  rewrite get_all_cases_saved by exact Hw.
  rewrite Ei. unfold without_case_id at 1. rewrite filter_app.
  fold (without_case_id (case_id c2)
          (without_case_id (case_id c2) (get_all_cases (db a)))).
  rewrite without_case_id_idem. simpl.
  now rewrite Ei, String.eqb_refl, app_nil_r.
Qed.

Lemma colliding_case_id_replaces_stored_case_witness :
  let e2 := mk_Entropy sample_later_that_day sample_later_that_day
              sample_later_that_day 0x1b9d6bcd_0000_4000_8000_000000000001%N in
  exists c2,
    create_new_case (form_data_of sample_voice_form) e2 (session sample_app)
    = Some c2
    /\ get_all_cases
         (db (fst (new_case_form sample_voice_form e2
                     (fst (new_case_form sample_form sample_entropy
                                         sample_app)))))
       = [c2].
Proof.
  assert (form_complete sample_form) as H1.
  { unfold form_complete, sample_form. simpl. repeat split; discriminate. }
  assert (form_complete sample_voice_form) as H2.
  { unfold form_complete, sample_voice_form. simpl.
    repeat split; discriminate. }
  assert (strftime_Ymd (now_id sample_entropy)
          = strftime_Ymd sample_later_that_day) as H3 by reflexivity.
  assert (N.shiftr (uuid4 sample_entropy) 96
          = N.shiftr 0x1b9d6bcd_0000_4000_8000_000000000001 96) as H4
      by (vm_compute; reflexivity).
  destruct (colliding_case_id_replaces_stored_case sample_form
              sample_voice_form sample_entropy
              (mk_Entropy sample_later_that_day sample_later_that_day
                 sample_later_that_day
                 0x1b9d6bcd_0000_4000_8000_000000000001%N)
              sample_app sample_agent eq_refl H1 H2
              (Forall_nil _) H3 H4)
    as (c1 & c2 & _ & E2 & _ & E).
  exists c2. split; [exact E2|exact E].
Defined.

(* ================================================================= *)
(** ** What holds over the life of a case *)

Lemma resolve_case_only_status_resolution case f now a :
  case_after (resolve_case case f now a)
  = set_resolution (resolution (case_after (resolve_case case f now a)))
      (set_status (status (case_after (resolve_case case f now a))) case).
Proof.
  unfold resolve_case. destruct case.
  destruct (close f), (escalate f), (truthy (resolution_notes f)); reflexivity.
Qed.

(** X22: a run of [resolve_case] changes no field of the case but
    [status] and [resolution]: id, channel, timestamps, reporter,
    region, issue and [handled_by] stay as created. *)
Theorem resolve_case_changes_only_status_and_resolution
        (case : Case) (f : ResolutionForm) (now : datetime) (a : App) :
  let c := case_after (resolve_case case f now a) in
  c = set_resolution (resolution c) (set_status (status c) case)
  /\ case_id c = case_id case /\ channel c = channel case
  /\ timestamps c = timestamps case /\ reporter c = reporter case
  /\ region c = region case /\ issue c = issue case
  /\ handled_by c = handled_by case.
Proof.
  cbv zeta. split; [apply resolve_case_only_status_resolution|].
  rewrite resolve_case_only_status_resolution. now repeat split.
Qed.

(** X23: every case made by the form and taken through any number of
    runs of [resolve_case] has status [Open] or [Closed] (never
    [Escalated]), no [resolved] time, and an id of the documented
    shape. *)
Theorem lifecycle_invariants (c : Case) (n r : bool) :
  lifecycle c n r ->
  status_written c
  /\ resolved (timestamps c) = None
  /\ case_id_format (case_id c) = true.
Proof.
  induction 1 as [fd e s c Hc|c n r f now a Hl (IH1 & IH2 & IH3)].
  - unfold create_new_case in Hc. destruct (user s); [|discriminate].
    destruct (truthy _) in Hc; inversion Hc; subst;
      cbn [set_resolution status timestamps resolved case_id];
      (split; [now left|split; [reflexivity|apply generate_case_id_format]]).
  - rewrite resolve_case_only_status_resolution.
    cbn [set_resolution set_status status timestamps resolved case_id].
    split; [|split; assumption].
    unfold status_written. rewrite resolve_case_status.
    destruct (resolves f); [|exact IH1]. destruct (close f); auto.
Qed.

Lemma lifecycle_invariants_witness :
  lifecycle created_case false false /\ status_written created_case.
Proof.
  split; [exact lifecycle_created_case|].
  exact (proj1 (lifecycle_invariants created_case false false
                  lifecycle_created_case)).
Defined.

(** X24: over the life of a case, the status is [Closed] exactly when
    the recorded action is [Closed by agent]. *)
Theorem closed_iff_closed_by_agent (c : Case) (n r : bool) :
  lifecycle c n r ->
  (status c = "Closed" <->
   exists res, resolution c = Some res
               /\ action_taken res = "Closed by agent").
Proof.
  induction 1 as [fd e s c Hc|c n r f now a Hl IH].
  - unfold create_new_case in Hc. destruct (user s); [|discriminate].
    destruct (truthy _) in Hc; inversion Hc; subst;
      cbn [set_resolution status resolution]; split; try discriminate.
    + intros (res & E & Ea). inversion E; subst. simpl in Ea. discriminate.
    + intros (res & E & _). discriminate.
  - rewrite resolve_case_status, resolve_case_resolution.
    destruct (resolves f); [|exact IH].
    destruct (close f); split; try discriminate.
    + intros _. eexists. split; reflexivity.
    + reflexivity.
    + intros (res & E & Ea). inversion E; subst. simpl in Ea. discriminate.
Qed.

Lemma closed_iff_closed_by_agent_witness :
  lifecycle created_case false false /\
  (status created_case = "Closed" <->
   exists res, resolution created_case = Some res
               /\ action_taken res = "Closed by agent").
Proof.
  split; [exact lifecycle_created_case|].
  exact (closed_iff_closed_by_agent created_case false false
           lifecycle_created_case).
Defined.

(* ================================================================= *)
(** ** The list and the dashboard together *)

Lemma filter_all {A} (l : list A) : filter (fun _ => true) l = l.
Proof. induction l as [|x l IH]; [reflexivity|]. simpl. now rewrite IH. Qed.

Lemma filter_swap {A} (p q : A -> bool) (l : list A) :
  filter p (filter q l) = filter q (filter p l).
Proof.
  induction l as [|x l IH]; [reflexivity|]. simpl.
  destruct (p x) eqn:Ep, (q x) eqn:Eq; simpl; rewrite ?Ep, ?Eq, IH;
    reflexivity.
Qed.

Lemma filter_cases_listed a :
  filter_cases a
  = filter (listed_under (case_filter (session a))) (get_all_cases (db a)).
Proof.
  unfold filter_cases.
  rewrite <- (filter_nil_or_cons (listed_under (case_filter (session a)))).
  destruct (get_all_cases (db a)) as [|c cs]; [reflexivity|].
  unfold listed_under.
  destruct (case_filter (session a) =? "All")%string;
    [now rewrite filter_all|].
  destruct (case_filter (session a) =? "Open")%string; [|reflexivity].
  apply filter_ext. intros x. unfold py_in. simpl. now rewrite orb_false_r.
Qed.

(** X25: the Open Cases and Closed Cases figures of the dashboard are
    the lengths of the lists shown under the filters [Open] and
    [Closed], and when every stored case has a status the program
    writes they add up to Total Cases. *)
Theorem dashboard_counts_match_filters (a : App) :
  open_cases (get_all_cases (db a))
  = Z.of_nat (List.length (filter_cases (set_case_filter "Open" a)))
  /\ closed_cases (get_all_cases (db a))
     = Z.of_nat (List.length (filter_cases (set_case_filter "Closed" a)))
  /\ (Forall status_written (get_all_cases (db a)) ->
      open_cases (get_all_cases (db a)) + closed_cases (get_all_cases (db a))
      = Z.of_nat (List.length (get_all_cases (db a)))).
Proof.
  split; [|split].
  - rewrite filter_cases_listed. cbn [set_case_filter session db case_filter].
    unfold open_cases, count_status. do 2 f_equal.
    apply filter_ext. intros x. unfold py_in. simpl. now rewrite orb_false_r.
  - rewrite filter_cases_listed. reflexivity.
  - unfold open_cases, closed_cases, count_status, status_written.
    rewrite <- Nat2Z.inj_add. intros H. f_equal.
    induction H as [|c cs Hc Hcs IH]; [reflexivity|].
    simpl in *. destruct Hc as [-> | ->]; simpl; lia.
Qed.

Lemma dashboard_counts_match_filters_witness :
  Forall status_written (get_all_cases (db (app_after after_close))) /\
  open_cases (get_all_cases (db (app_after after_close)))
  + closed_cases (get_all_cases (db (app_after after_close))) = 1.
Proof.
  assert (Forall status_written (get_all_cases (db (app_after after_close))))
    as H by (repeat constructor; now right).
  split; [exact H|].
  exact (proj2 (proj2 (dashboard_counts_match_filters (app_after after_close)))
               H).
Defined.

(** X26: in a store keyed by case id, the Delete button of a listed
    case takes the cases of that id out of the list under every filter
    and leaves the other listed cases in place. *)
Theorem click_delete_unlists (c : Case) (filter_option : string) (a : App) :
  well_keyed (db a) ->
  filter_cases (set_case_filter filter_option (click_delete c a))
  = without_case_id (case_id c)
      (filter_cases (set_case_filter filter_option a)).
Proof.
  intros H. rewrite !filter_cases_listed.
  cbn [set_case_filter click_delete session db case_filter].
  rewrite get_all_cases_deleted by exact H.
  unfold without_case_id. apply filter_swap.
Qed.

Lemma click_delete_unlists_witness :
  let a := mk_App (save_case sample_other (save_case sample_closed fresh_db))
                  initial_session in
  well_keyed (db a) /\
  filter_cases (set_case_filter "All" (click_delete sample_closed a))
  = [sample_other].
Proof.
  assert (well_keyed (save_case sample_other (save_case sample_closed fresh_db)))
    as H by (repeat constructor).
  split; [exact H|].
  exact (click_delete_unlists sample_closed "All"
           (mk_App (save_case sample_other (save_case sample_closed fresh_db))
                   initial_session) H).
Defined.

(* ================================================================= *)
(** ** Timestamps and pages *)

(** X28: [main] shows the case form only while the session holds no
    case, so the banner at the end of [new_case_form] is never shown;
    after a complete form is submitted, [main] shows the resolution
    page of the new case. *)
Theorem submitted_case_opens_resolution_page
        (f : CaseForm) (e : Entropy) (a : App) (u : User) :
  user (session a) = Some u ->
  form_complete f ->
  (forall s, main_page s = new_case_page -> post_submission_message s = None)
  /\ exists c,
       create_new_case (form_data_of f) e (session a) = Some c
       /\ main_page (session (fst (new_case_form f e a))) = resolve_page c
       /\ post_submission_message (session (fst (new_case_form f e a)))
          = Some ("Case " ++ case_id c ++ " created successfully!").
Proof.
  intros Hu Hf. split.
  - intros s. unfold main_page, post_submission_message.
    destruct (current_case s); [discriminate|].
    now destruct (new_case_submitted s).
  - destruct (new_case_form_saved f e a u Hu Hf) as (c & Ec & ->).
    exists c. now repeat split.
Qed.

Lemma submitted_case_opens_resolution_page_witness :
  user (session sample_app) = Some sample_agent /\
  main_page (session after_create) = resolve_page created_case.
Proof.
  assert (form_complete sample_form) as Hf.
  { unfold form_complete, sample_form. simpl. repeat split; discriminate. }
  split; [reflexivity|].
  destruct (proj2 (submitted_case_opens_resolution_page sample_form
                     sample_entropy sample_app sample_agent eq_refl Hf))
    as (c & Ec & Em & _).
  inversion Ec; subst. exact Em.
Defined.

(* ================================================================= *)
(** ** What every run of the script keeps *)

Lemma tables_sound_init d : tables_sound d -> tables_sound (init_db d).
Proof.
  intros (H1 & H2 & H3). repeat split; try assumption.
  simpl. now apply insert_or_ignore_unique.
Qed.

Lemma tables_sound_save_case c d : tables_sound d -> tables_sound (save_case c d).
Proof.
  intros (H1 & H2 & H3). repeat split; try assumption.
  - now apply well_keyed_save.
  - simpl. now apply insert_or_replace_unique.
Qed.

Lemma tables_sound_delete_case id d :
  tables_sound d -> tables_sound (delete_case id d).
Proof.
  intros (H1 & H2 & H3). repeat split; try assumption.
  - now apply well_keyed_delete.
  - simpl. now apply sql_delete_unique.
Qed.

Lemma tables_sound_save_user u d : tables_sound d -> tables_sound (save_user u d).
Proof.
  intros (H1 & H2 & H3). repeat split; try assumption.
  simpl. now apply (insert_or_replace_unique row_username).
Qed.

Lemma tables_sound_delete_user n d :
  tables_sound d -> tables_sound (delete_user n d).
Proof.
  intros (H1 & H2 & H3). repeat split; try assumption.
  simpl. now apply sql_delete_unique.
Qed.

Lemma resolve_case_sound case f now a :
  tables_sound (db a) ->
  tables_sound (db (app_after (resolve_case case f now a))).
Proof.
  intros H. unfold resolve_case.
  destruct (close f || escalate f); [|exact H].
  destruct (negb (truthy (resolution_notes f))); [exact H|].
  now apply tables_sound_save_case.
Qed.

Lemma new_case_form_sound f e a :
  tables_sound (db a) -> tables_sound (db (fst (new_case_form f e a))).
Proof.
  intros H. unfold new_case_form.
  repeat match goal with
         | |- context [if ?b then _ else _] => destruct b
         end; try exact H.
  destruct (create_new_case _ _ _); [|exact H].
  now apply tables_sound_save_case.
Qed.

Lemma user_management_sound act s :
  tables_sound (db (app s)) ->
  tables_sound (db (app (fst (user_management act s)))).
Proof.
  intros H. unfold user_management.
  destruct (user (session (app s))); [|exact H].
  destruct (negb _); [exact H|].
  destruct act as [|n p r g|i|i]; [exact H| | |].
  - destruct (truthy n && truthy p); [|exact H].
    destruct (existsb _ _); [exact H|]. now apply tables_sound_save_user.
  - destruct (nth_error _ _); exact H.
  - destruct (nth_error _ _); [|exact H]. now apply tables_sound_delete_user.
Qed.

Lemma edit_user_sound f s :
  tables_sound (db (app s)) ->
  tables_sound (db (app (fst (edit_user f s)))).
Proof.
  intros H. unfold edit_user.
  destruct (editing_user s); [|exact H].
  destruct (_ || _); [exact H|].
  destruct (save_changes f).
  - destruct (_ =? _)%string; [|exact H]. now apply tables_sound_save_user.
  - destruct (cancel f); exact H.
Qed.

(** X29: every run of the script, whatever the user does, keeps the
    rows of [cases] stored under the id of their case and the keys of
    both tables unique. *)
Theorem run_keeps_tables_sound (ev : Event) (s : UserPages) :
  tables_sound (db (app s)) -> tables_sound (db (app (run ev s))).
Proof.
  intros H0. apply tables_sound_init in H0. unfold run.
  cbn [with_app app session db].
  destruct (negb (logged_in (session (app s)))).
  { destruct ev; try exact H0. cbn [with_app app].
    now rewrite login_page_db. }
  unfold main. cbn [with_app app session db].
  destruct (user (session (app s))) as [me|]; [|exact H0].
  destruct ev as [n p|page| |f now|flt i|flt i|f e|act|f].
  - now destruct (main_page _).
  - now destruct (py_in page (nav_options me)).
  - exact H0.
  - destruct (main_page _); try exact H0. now apply resolve_case_sound.
  - destruct (main_page _); try exact H0.
    destruct (get_all_cases _); [exact H0|].
    now destruct (nth_error _ _).
  - destruct (main_page _); try exact H0.
    destruct (get_all_cases _); [exact H0|].
    destruct (nth_error _ _); [|exact H0].
    now apply tables_sound_delete_case.
  - destruct (main_page _); try exact H0. now apply new_case_form_sound.
  - destruct (main_page _); try exact H0. now apply user_management_sound.
  - destruct (main_page _); try exact H0. now apply edit_user_sound.
Qed.

Lemma run_keeps_tables_sound_witness :
  tables_sound (db (app sample_admin_pages)) /\
  tables_sound
    (db (app (run (ev_users (add_user "bwalya" "pa55" "Manager" "Copperbelt"))
                  sample_admin_pages))).
Proof.
  assert (tables_sound (db (app sample_admin_pages))) as H.
  { repeat split; repeat constructor. intros []. }
  split; [exact H|].
  exact (run_keeps_tables_sound
           (ev_users (add_user "bwalya" "pa55" "Manager" "Copperbelt"))
           sample_admin_pages H).
Defined.
